(** * Failure similarity and pattern analysis engine (ai-analysis)

    A shallow embedding of [src/log_parser.py] (the event model),
    [src/vector_store.py] (the similarity index on top of the Qdrant client),
    [src/analysis_service.py] (the analysis engine) and the two analysis
    settings of [config/settings.py].

    Python values are modelled as follows.
    - [str] is [string] (a sequence of bytes, UTF-8 for the literals of the
      source); [str.lower] and [str.strip] act on the ASCII range, code points
      above it are left alone.
    - [int] is [Z]; [float] is the kernel's binary64 [float], so that the
      literals [0.3], [0.85], [0.9] and the division of [get_summary] round as
      they do in CPython.
    - A method that mutates [self] or may raise is a function from the state
      to an [Outcome] and the next state. *)

From Stdlib Require Import ZArith List String Ascii Bool Lia.
From Stdlib Require Import Floats Uint63 DecimalString.
From Stdlib Require Permutation.
Import ListNotations.

Set Warnings "-inexact-float".

Open Scope string_scope.

(** [l.append(x)] *)
Definition append {A : Type} (l : list A) (x : A) : list A := (l ++ [x])%list.

(** ** Python strings *)

Module PyStr.

Definition newline : ascii := "010"%char.
Definition tab : ascii := "009"%char.

(** [c in string.ascii_uppercase] *)
Definition is_upper (c : ascii) : bool :=
  let n := nat_of_ascii c in (65 <=? n)%nat && (n <=? 90)%nat.

Definition lower_char (c : ascii) : ascii :=
  if is_upper c then ascii_of_nat (nat_of_ascii c + 32) else c.

(** [s.lower()] *)
Fixpoint lower (s : string) : string :=
  match s with
  | EmptyString => EmptyString
  | String c r => String (lower_char c) (lower r)
  end.

(** [s.startswith(p)] *)
Definition startswith (s p : string) : bool := String.prefix p s.

(** [needle in hay] *)
Fixpoint contains (needle hay : string) : bool :=
  String.prefix needle hay
  || match hay with
     | EmptyString => false
     | String _ r => contains needle r
     end.

(** [s.split("\n")] *)
Fixpoint split_lines (s : string) : list string :=
  match s with
  | EmptyString => [EmptyString]
  | String c r =>
      if Ascii.eqb c newline then EmptyString :: split_lines r
      else match split_lines r with
           | [] => [String c EmptyString]
           | h :: t => String c h :: t
           end
  end.

(** The ASCII characters for which [str.isspace] holds. *)
Definition is_space (c : ascii) : bool :=
  let n := nat_of_ascii c in
  ((9 <=? n)%nat && (n <=? 13)%nat)
  || ((28 <=? n)%nat && (n <=? 32)%nat).

Fixpoint lstrip (s : string) : string :=
  match s with
  | EmptyString => EmptyString
  | String c r => if is_space c then lstrip r else s
  end.

Fixpoint rstrip (s : string) : string :=
  match s with
  | EmptyString => EmptyString
  | String c r =>
      match rstrip r with
      | EmptyString => if is_space c then EmptyString else String c EmptyString
      | r' => String c r'
      end
  end.

(** [s.strip()] *)
Definition strip (s : string) : string := rstrip (lstrip s).

(** [bool(s)] *)
Definition truthy (s : string) : bool :=
  match s with EmptyString => false | _ => true end.

(** [sep.join(parts)] *)
Definition join (sep : string) (parts : list string) : string :=
  String.concat sep parts.

(** [str(n)] for an [int] *)
Definition of_int (n : Z) : string := NilZero.string_of_int (Z.to_int n).

End PyStr.

(** ** [log_parser.py]: the event model *)

Record TestEvent : Type := mkTestEvent {
  event_id : string;
  timestamp : string;
  test_id : string;
  test_name : string;
  suite : string;
  class_name : string;
  environment : string;
  level : string;
  status : string;
  message : string;
  stacktrace : option string;
  duration_ms : Z;
  service : string;
  attributes : list (string * string)
}.

(** [bool(self.stacktrace)]: neither [None] nor the empty string. *)
Definition stacktrace_truthy (e : TestEvent) : option string :=
  match stacktrace e with
  | Some s => if PyStr.truthy s then Some s else None
  | None => None
  end.

Definition is_failure (e : TestEvent) : bool :=
  String.eqb (status e) "FAILED" && String.eqb (level e) "ERROR".

(** The loop of [failure_signature]: the first of the given lines that is
    not blank and does not start with a tab. *)
Definition first_meaningful_line (lines : list string) : option string :=
  find (fun line =>
          PyStr.truthy (PyStr.strip line)
          && negb (PyStr.startswith line (String PyStr.tab EmptyString)))
       lines.

Definition failure_signature (e : TestEvent) : string :=
  if negb (is_failure e) then ""
  else
    let parts :=
      [ "Test: " ++ test_name e;
        "Class: " ++ class_name e;
        "Error: " ++ message e ] in
    let parts :=
      match stacktrace_truthy e with
      | Some st =>
          let lines := PyStr.split_lines st in
          match first_meaningful_line (firstn 5 lines) with
          | Some line => append parts ("Exception: " ++ PyStr.strip line)
          | None => parts
          end
      | None => parts
      end in
    PyStr.join " | " parts.

Definition to_embedding_text (e : TestEvent) : string :=
  let text_parts :=
    [ "Test failure in " ++ test_name e;
      "Class: " ++ class_name e;
      "Suite: " ++ suite e;
      "Error message: " ++ message e ] in
  let text_parts :=
    match stacktrace_truthy e with
    | Some st =>
        let stack_lines := firstn 10 (PyStr.split_lines st) in
        append text_parts ("Stacktrace: " ++ PyStr.join " " stack_lines)
    | None => text_parts
    end in
  PyStr.join " " text_parts.

(** ** Python numbers *)

Module PyNum.

(** [float(n)] for an [int] of magnitude below 2^53, where the conversion
    is exact; list lengths and the literals [0] and [100] are the only
    integers converted. *)
Definition float_of_int (n : Z) : float :=
  if Z.ltb n 0 then PrimFloat.opp (PrimFloat.of_uint63 (Uint63.of_Z (- n)))
  else PrimFloat.of_uint63 (Uint63.of_Z n).

(** [a / b] on two [int]s: CPython rounds the exact quotient once, which
    for operands below 2^53 is the binary64 division of their floats. *)
Definition truediv (a b : Z) : float :=
  PrimFloat.div (float_of_int a) (float_of_int b).

(** [bool(x)] for a [float]: false for [0.0] and [-0.0] only. *)
Definition float_truthy (x : float) : bool := negb (PrimFloat.eqb x 0%float).

(** [x or default] for an optional [int] argument. *)
Definition int_or (x : option Z) (default : Z) : Z :=
  match x with
  | Some v => if Z.eqb v 0 then default else v
  | None => default
  end.

(** [x or default] for an optional [float] argument. *)
Definition float_or (x : option float) (default : float) : float :=
  match x with
  | Some v => if float_truthy v then v else default
  | None => default
  end.

(** [sum(xs)] over floats, started at the integer [0] and added left to
    right (CPython 3.12 and later compensate the rounding error of the
    partial sums; no statement below depends on the value). *)
Definition sum (xs : list float) : float :=
  fold_left PrimFloat.add xs 0%float.

(** A number that is an [int] on one path and a [float] on another. *)
Inductive number : Type :=
| Int (n : Z)
| Float (x : float).

(** [n > x] for a number [n] and a float literal [x]. *)
Definition gt_float (n : number) (x : float) : bool :=
  match n with
  | Int z => PrimFloat.ltb x (float_of_int z)
  | Float y => PrimFloat.ltb x y
  end.

End PyNum.

(** ** [config/settings.py]: the analysis settings *)

Module settings.
Definition QDRANT_COLLECTION : string := "test_failures".
Definition SIMILARITY_THRESHOLD : float := 0.3%float.
Definition TOP_K_RESULTS : Z := 5.
End settings.

(** ** Methods as state transformers *)

Inductive PyException : Type :=
| ValueError (msg : string).

Inductive Outcome (A : Type) : Type :=
| Return (a : A)
| Raise (e : PyException).
Arguments Return {A} a.
Arguments Raise {A} e.

(** A method of an object whose state is [S], with a result in [A]. *)
Definition Py (S A : Type) : Type := S -> Outcome A * S.

Definition ret {S A : Type} (a : A) : Py S A := fun s => (Return a, s).

Definition raise {S A : Type} (e : PyException) : Py S A := fun s => (Raise e, s).

Definition bind {S A B : Type} (m : Py S A) (k : A -> Py S B) : Py S B :=
  fun s =>
    match m s with
    | (Return a, s') => k a s'
    | (Raise e, s') => (Raise e, s')
    end.

Definition modify {S : Type} (f : S -> S) : Py S unit := fun s => (Return tt, f s).

Definition gets {S A : Type} (f : S -> A) : Py S A := fun s => (Return (f s), s).

Declare Scope py_scope.
Delimit Scope py_scope with py.
Notation "x <- m ;; k" := (bind m (fun x => k))
  (at level 61, m at next level, right associativity) : py_scope.
Notation "m ;;; k" := (bind m (fun _ => k))
  (at level 61, right associativity) : py_scope.

(** [for x in l: body(x)] *)
Fixpoint for_each {S A B : Type} (l : list A) (body : A -> Py S B) : Py S unit :=
  match l with
  | [] => ret tt
  | x :: r => (body x ;;; for_each r body)%py
  end.

(** ** The collaborators of the vector store *)

(** The payload stored with a vector by [index_failure]. *)
Record Payload : Type := mkPayload {
  p_event_id : string;
  p_test_id : string;
  p_test_name : string;
  p_class_name : string;
  p_suite : string;
  p_message : string;
  p_stacktrace : string;
  p_timestamp : string;
  p_duration_ms : Z;
  p_embedding_text : string
}.

Record PointStruct : Type := mkPoint {
  point_id : string;
  vector : list float;
  payload : Payload
}.

(** A hit of [query_points]. *)
Record ScoredPoint : Type := mkHit {
  hit_score : float;
  hit_point : PointStruct
}.

(** What lies outside the repository: the sentence-embedding model behind
    [embedding_service.encode_single], the similarity the index computes
    between two vectors, and the identifiers [uuid.uuid4] hands out (the
    n-th draw of the process). *)
Class Externals : Type := {
  encode_single : string -> list float;
  similarity : list float -> list float -> float;
  uuid4 : nat -> string
}.

(** The calls that leave the repository's code. *)
Inductive Call : Type :=
| CallEncodeSingle (text : string)
| CallUuid4
| CallUpsert (p : PointStruct)
| CallQueryPoints (query : list float) (limit : Z) (score_threshold : float)
| CallGetCollection.

Module Qdrant.

(** Modelled from the spec: the Qdrant client library is not part of the
    sources. [upsert(id, vector, payload)] inserts or replaces by
    identifier. *)
Fixpoint upsert (p : PointStruct) (c : list PointStruct) : list PointStruct :=
  match c with
  | [] => [p]
  | q :: r =>
      if String.eqb (point_id q) (point_id p) then p :: r
      else q :: upsert p r
  end.

(** Insertion of a hit into a list ordered by descending score; among
    equal scores the earlier entry stays first. *)
Fixpoint insert_hit (h : ScoredPoint) (l : list ScoredPoint) : list ScoredPoint :=
  match l with
  | [] => [h]
  | h' :: r =>
      if PrimFloat.leb (hit_score h') (hit_score h) then h :: l
      else h' :: insert_hit h r
  end.

Definition sort_hits (l : list ScoredPoint) : list ScoredPoint :=
  fold_right insert_hit [] l.

(** Modelled from the spec: the Qdrant client library is not part of the
    sources. [query(vector, top_k, score_threshold)] returns up to
    [top_k] entries with similarity at least [score_threshold], ordered
    descending by score, ties in insertion order. *)
Definition query_points `{Externals} (c : list PointStruct)
    (query : list float) (limit : Z) (score_threshold : float)
    : list ScoredPoint :=
  let scored := map (fun p => mkHit (similarity query (vector p)) p) c in
  let kept := filter (fun h => PrimFloat.leb score_threshold (hit_score h)) scored in
  firstn (Z.to_nat limit) (sort_hits kept).

End Qdrant.

(** ** [vector_store.py] *)

(** The state behind a [VectorStore]: [points] is the content of the
    collection [collection_name] held by [self.client]; [uuid_drawn] counts
    the identifiers drawn so far and [calls] lists the external calls made
    so far, oldest first. *)
Record VectorStore : Type := mkVectorStore {
  collection_name : string;
  points : list PointStruct;
  uuid_drawn : nat;
  calls : list Call
}.

(** One entry of the list [search_similar] returns. *)
Record SimilarityResult : Type := mkResult {
  score : float;
  r_test_name : string;
  r_class_name : string;
  r_message : string;
  r_stacktrace : string;
  r_timestamp : string
}.

(** The result of [get_collection_info]. *)
Record CollectionInfo : Type := mkCollectionInfo {
  name : string;
  points_count : Z
}.

Module VectorStoreImpl.
Section WithExternals.
Context `{Externals}.

Definition log_call (c : Call) : Py VectorStore unit :=
  modify (fun vs =>
    mkVectorStore (collection_name vs) (points vs) (uuid_drawn vs)
                  (append (calls vs) c)).

(** [embedding_service.encode_single(text)] *)
Definition call_encode_single (text : string) : Py VectorStore (list float) :=
  (log_call (CallEncodeSingle text) ;;; ret (encode_single text))%py.

(** [str(uuid.uuid4())] *)
Definition call_uuid4 : Py VectorStore string :=
  (n <- gets uuid_drawn ;;
   modify (fun vs =>
     mkVectorStore (collection_name vs) (points vs) (S (uuid_drawn vs))
                   (append (calls vs) CallUuid4)) ;;;
   ret (uuid4 n))%py.

(** [self.client.upsert(collection_name, points=[p])] *)
Definition client_upsert (p : PointStruct) : Py VectorStore unit :=
  (log_call (CallUpsert p) ;;;
   modify (fun vs =>
     mkVectorStore (collection_name vs) (Qdrant.upsert p (points vs))
                   (uuid_drawn vs) (calls vs)))%py.

(** [self.client.query_points(collection_name, query, limit, score_threshold).points] *)
Definition client_query_points (query : list float) (limit : Z)
    (score_threshold : float) : Py VectorStore (list ScoredPoint) :=
  (log_call (CallQueryPoints query limit score_threshold) ;;;
   gets (fun vs => Qdrant.query_points (points vs) query limit score_threshold))%py.

(** [VectorStore(in_memory=True)]: a fresh in-memory client, in which
    [_ensure_collection] creates the empty collection. *)
Definition __init__ : VectorStore :=
  mkVectorStore settings.QDRANT_COLLECTION [] 0 [].

Definition payload_of (event : TestEvent) (text : string) : Payload :=
  mkPayload (event_id event) (test_id event) (test_name event)
            (class_name event) (suite event) (message event)
            (match stacktrace_truthy event with Some s => s | None => "" end)
            (timestamp event) (duration_ms event) text.

Definition index_failure (event : TestEvent) : Py VectorStore string :=
  if negb (is_failure event) then
    raise (ValueError "Can only index failure events")
  else
    (let text := to_embedding_text event in
     embedding <- call_encode_single text ;;
     point_id <- call_uuid4 ;;
     client_upsert (mkPoint point_id embedding (payload_of event text)) ;;;
     ret point_id)%py.

Definition index_failures (events : list TestEvent) : Py VectorStore Z :=
  let failures := filter is_failure events in
  (for_each failures index_failure ;;;
   ret (Z.of_nat (List.length failures)))%py.

Definition hit_to_dict (hit : ScoredPoint) : SimilarityResult :=
  let p := payload (hit_point hit) in
  mkResult (hit_score hit) (p_test_name p) (p_class_name p) (p_message p)
           (p_stacktrace p) (p_timestamp p).

Definition search_similar (query_text : string) (top_k : option Z)
    (threshold : option float) : Py VectorStore (list SimilarityResult) :=
  let top_k := PyNum.int_or top_k settings.TOP_K_RESULTS in
  let threshold := PyNum.float_or threshold settings.SIMILARITY_THRESHOLD in
  (query_embedding <- call_encode_single query_text ;;
   results <- client_query_points query_embedding top_k threshold ;;
   ret (map hit_to_dict results))%py.

Definition get_collection_info : Py VectorStore CollectionInfo :=
  (log_call CallGetCollection ;;;
   gets (fun vs =>
     mkCollectionInfo (collection_name vs) (Z.of_nat (List.length (points vs)))))%py.

End WithExternals.
End VectorStoreImpl.

(** ** [collections.Counter] *)

Module Counter.

(** A counter keeps its keys in the order of their first occurrence. *)
Definition t : Type := list (string * Z).

Fixpoint add (k : string) (c : t) : t :=
  match c with
  | [] => [(k, 1%Z)]
  | (k', n) :: r =>
      if String.eqb k' k then (k', (n + 1)%Z) :: r else (k', n) :: add k r
  end.

(** [Counter(keys)] *)
Definition of_list (keys : list string) : t :=
  fold_left (fun c k => add k c) keys [].

Fixpoint insert (x : string * Z) (l : t) : t :=
  match l with
  | [] => [x]
  | y :: r => if Z.leb (snd y) (snd x) then x :: l else y :: insert x r
  end.

(** [c.most_common(n)]: by descending count, equal counts in the order
    first encountered; [dict(...)] of the result keeps that order. *)
Definition most_common (n : option nat) (c : t) : t :=
  let ranked := fold_right insert [] c in
  match n with
  | Some n => firstn n ranked
  | None => ranked
  end.

End Counter.

(** ** [analysis_service.py] *)

(** The parser of the service: [log_file] is the sequence of events that
    [parse_all] yields from the file at [log_path]. *)
Record LogParser : Type := mkLogParser {
  log_path : string;
  log_file : list TestEvent
}.

Definition get_all_events (p : LogParser) : list TestEvent := log_file p.

Definition get_failures (p : LogParser) : list TestEvent :=
  filter is_failure (log_file p).

Record AnalysisService : Type := mkAnalysisService {
  parser : LogParser;
  vector_store : VectorStore;
  _indexed : bool
}.

(** The result of [load_and_index]. *)
Record IndexStats : Type := mkIndexStats {
  total_events : Z;
  failures_indexed : Z;
  passed : Z;
  started : Z
}.

(** The result of [_extract_patterns]; the last three keys are absent when
    there is no similar failure. *)
Record Patterns : Type := mkPatterns {
  recurring : bool;
  frequency : Z;
  affected_tests : option Counter.t;
  affected_classes : option Counter.t;
  avg_similarity : option PyNum.number
}.

Record AnalysisReport : Type := mkAnalysisReport {
  a_test_name : string;
  a_class_name : string;
  a_error_message : string;
  similar_failures : list SimilarityResult;
  patterns : Patterns;
  recommendation : string
}.

(** The two shapes of dictionary [analyze_failure] returns. *)
Inductive AnalysisResult : Type :=
| ErrorDict (error : string)
| ReportDict (report : AnalysisReport).

(** The result of [get_summary]. *)
Record Summary : Type := mkSummary {
  total_tests : Z;
  total_failures : Z;
  failure_rate : PyNum.number;
  failures_by_class : Counter.t;
  failures_by_test : Counter.t;
  index_info : CollectionInfo
}.

Definition len {A : Type} (l : list A) : Z := Z.of_nat (List.length l).

Module Guidance.
Definition recurring (frequency : Z) : string :=
  "⚠️ This appears to be a RECURRING failure. "
  ++ "Found " ++ PyStr.of_int frequency ++ " similar failures.".
Definition high_similarity : string :=
  "🔴 Very high similarity with past failures - likely same root cause.".
Definition timeout : string :=
  "⏱️ Timeout error detected. Consider increasing wait times or checking element locators.".
Definition locator : string :=
  "🔍 Element not found. Verify locator strategy and page load state.".
Definition assertion : string :=
  "✅ Assertion failure. Check expected vs actual values in test data.".
Definition fallback : string :=
  "ℹ️ Review the stacktrace for more details on this failure.".
End Guidance.

Definition _extract_patterns (event : TestEvent) (similar : list SimilarityResult)
    : Patterns :=
  match similar with
  | [] => mkPatterns false 0 None None None
  | _ :: _ =>
      let test_names := map r_test_name similar in
      let class_names := map r_class_name similar in
      let test_counts := Counter.of_list test_names in
      let class_counts := Counter.of_list class_names in
      mkPatterns
        (Z.ltb 0 (len similar)
         && existsb (fun s => PrimFloat.ltb 0.85%float (score s)) similar)
        (len similar)
        (Some (Counter.most_common (Some 5%nat) test_counts))
        (Some (Counter.most_common (Some 5%nat) class_counts))
        (Some (PyNum.Float
           (PrimFloat.div (PyNum.sum (map score similar))
                          (PyNum.float_of_int (len similar)))))
  end.

(** The list [recommendations] of [_generate_recommendation] before it is
    joined. *)
Definition recommendations_of (event : TestEvent)
    (similar : list SimilarityResult) (patterns : Patterns) : list string :=
  let recommendations : list string := [] in
  let recommendations :=
    if recurring patterns
    then append recommendations (Guidance.recurring (frequency patterns))
    else recommendations in
  let recommendations :=
    if PyNum.gt_float
         (match avg_similarity patterns with Some a => a | None => PyNum.Int 0 end)
         0.9%float
    then append recommendations Guidance.high_similarity
    else recommendations in
  let msg := PyStr.lower (message event) in
  let recommendations :=
    if PyStr.contains "timeout" msg
    then append recommendations Guidance.timeout
    else if PyStr.contains "element not found" msg
            || PyStr.contains "nosuchelement" msg
    then append recommendations Guidance.locator
    else if PyStr.contains "assertion" msg
    then append recommendations Guidance.assertion
    else recommendations in
  let recommendations :=
    match recommendations with
    | [] => append recommendations Guidance.fallback
    | _ :: _ => recommendations
    end in
  recommendations.

Definition _generate_recommendation (event : TestEvent)
    (similar : list SimilarityResult) (patterns : Patterns) : string :=
  PyStr.join " " (recommendations_of event similar patterns).

Module AnalysisServiceImpl.
Section WithExternals.
Context `{Externals}.

(** A method of [self.vector_store] run from a method of the service. *)
Definition on_vector_store {A : Type} (m : Py VectorStore A)
    : Py AnalysisService A :=
  fun s =>
    let (r, vs) := m (vector_store s) in
    (r, mkAnalysisService (parser s) vs (_indexed s)).

Definition set_indexed (b : bool) : Py AnalysisService unit :=
  modify (fun s => mkAnalysisService (parser s) (vector_store s) b).

Definition __init__ (p : LogParser) : AnalysisService :=
  mkAnalysisService p VectorStoreImpl.__init__ false.

Definition load_and_index : Py AnalysisService IndexStats :=
  (events <- gets (fun s => get_all_events (parser s)) ;;
   let failures := filter is_failure events in
   indexed_count <- on_vector_store (VectorStoreImpl.index_failures failures) ;;
   set_indexed true ;;;
   ret (mkIndexStats
          (len events)
          indexed_count
          (len (filter (fun e => String.eqb (status e) "PASSED") events))
          (len (filter (fun e => String.eqb (status e) "STARTED") events))))%py.

Definition find_similar_failures (error_message : string) (top_k : Z)
    : Py AnalysisService (list SimilarityResult) :=
  (indexed <- gets _indexed ;;
   (if negb indexed then (load_and_index ;;; ret tt) else ret tt) ;;;
   on_vector_store
     (VectorStoreImpl.search_similar error_message (Some top_k) None))%py.

Definition analyze_failure (event : TestEvent)
    : Py AnalysisService AnalysisResult :=
  if negb (is_failure event) then ret (ErrorDict "Not a failure event")
  else
    (similar <- find_similar_failures (to_embedding_text event) 5 ;;
     let patterns := _extract_patterns event similar in
     ret (ReportDict
            (mkAnalysisReport
               (test_name event)
               (class_name event)
               (message event)
               similar
               patterns
               (_generate_recommendation event similar patterns))))%py.

Definition get_summary : Py AnalysisService Summary :=
  (events <- gets (fun s => get_all_events (parser s)) ;;
   let failures := filter is_failure events in
   info <- on_vector_store VectorStoreImpl.get_collection_info ;;
   ret (mkSummary
          (len (filter (fun e => String.eqb (status e) "PASSED"
                                 || String.eqb (status e) "FAILED") events))
          (len failures)
          (match events with
           | _ :: _ =>
               PyNum.Float
                 (PrimFloat.mul (PyNum.truediv (len failures) (len events))
                                (PyNum.float_of_int 100))
           | [] => PyNum.Int 0
           end)
          (Counter.most_common None (Counter.of_list (map class_name failures)))
          (Counter.most_common None (Counter.of_list (map test_name failures)))
          info))%py.

End WithExternals.
End AnalysisServiceImpl.

(** ** Vocabulary of the statements *)

(** The two status tests of [get_summary] and [load_and_index]. *)
Definition is_passed (e : TestEvent) : bool := String.eqb (status e) "PASSED".

Definition is_test (e : TestEvent) : bool :=
  String.eqb (status e) "PASSED" || String.eqb (status e) "FAILED".

(** The character [c] occurs in [s]. *)
Fixpoint has_char (c : ascii) (s : string) : bool :=
  match s with
  | EmptyString => false
  | String c' r => Ascii.eqb c' c || has_char c r
  end.

(** The second byte of the check mark that opens the assertion guidance; no
    other guidance holds it. *)
Definition check_mark_byte : ascii := "156"%char.

(** The three messages of the text-matching rules. *)
Definition text_guidance : list string :=
  [Guidance.timeout; Guidance.locator; Guidance.assertion].

Definition is_text_guidance (part : string) : bool :=
  existsb (String.eqb part) text_guidance.




Section Vocabulary.
Context `{Externals}.

(** The point a successful [index_failure] writes for [event] when [n]
    identifiers have been drawn before. *)
Definition indexed_point (event : TestEvent) (n : nat) : PointStruct :=
  let text := to_embedding_text event in
  mkPoint (uuid4 n) (encode_single text) (VectorStoreImpl.payload_of event text).

(** The external calls of one successful [index_failure]. *)
Definition index_calls (event : TestEvent) (n : nat) : list Call :=
  [ CallEncodeSingle (to_embedding_text event);
    CallUuid4;
    CallUpsert (indexed_point event n) ].

(** The collection and the calls after indexing a list of failures one by
    one, the first with [n] identifiers drawn before. *)
Fixpoint points_after (failures : list TestEvent) (n : nat)
    (pts : list PointStruct) : list PointStruct :=
  match failures with
  | [] => pts
  | e :: r => points_after r (S n) (Qdrant.upsert (indexed_point e n) pts)
  end.

Fixpoint calls_of (failures : list TestEvent) (n : nat) : list Call :=
  match failures with
  | [] => []
  | e :: r => (index_calls e n ++ calls_of r (S n))%list
  end.

(** The engine after [load_and_index]: every failure of the log indexed
    in order, and the flag set. *)
Definition loaded (s : AnalysisService) : AnalysisService :=
  let vs := vector_store s in
  let failures := filter is_failure (get_all_events (parser s)) in
  mkAnalysisService (parser s)
    (mkVectorStore (collection_name vs)
       (points_after failures (uuid_drawn vs) (points vs))
       (uuid_drawn vs + List.length failures)
       (calls vs ++ calls_of failures (uuid_drawn vs)))
    true.

(** The operations a caller can run on an engine instance. *)
Inductive Operation : Type :=
| OpLoadAndIndex
| OpFindSimilar (error_message : string) (top_k : Z)
| OpAnalyze (event : TestEvent)
| OpSummary.

(** The state an operation leaves behind. *)
Definition run (op : Operation) (s : AnalysisService) : AnalysisService :=
  match op with
  | OpLoadAndIndex => snd (AnalysisServiceImpl.load_and_index s)
  | OpFindSimilar m k => snd (AnalysisServiceImpl.find_similar_failures m k s)
  | OpAnalyze e => snd (AnalysisServiceImpl.analyze_failure e s)
  | OpSummary => snd (AnalysisServiceImpl.get_summary s)
  end.

Definition run_all (ops : list Operation) (s : AnalysisService)
    : AnalysisService :=
  fold_left (fun s op => run op s) ops s.

(** The call raised an exception. *)
Definition raises {S A : Type} (m : Py S A) (s : S) : Prop :=
  exists e, fst (m s) = Raise e.

End Vocabulary.

(** ** A concrete instance

    A two-dimensional stand-in for the embedding model, with the dot product
    as similarity, and a small corpus; used to run the engine on concrete
    inputs. *)

Module Demo.

Fixpoint dot (a b : list float) : float :=
  match a, b with
  | x :: a', y :: b' => PrimFloat.add (PrimFloat.mul x y) (dot a' b')
  | _, _ => 0%float
  end.

#[export] Instance externals : Externals := {|
  encode_single := fun text =>
    if PyStr.contains "timeout" (PyStr.lower text) then [1%float; 0%float]
    else if PyStr.contains "assertion" (PyStr.lower text)
    then [0.6%float; 0.8%float]
    else [0%float; 1%float];
  similarity := dot;
  uuid4 := fun n => "uuid-" ++ PyStr.of_int (Z.of_nat n)
|}.

Definition event (test st lv msg : string) : TestEvent :=
  mkTestEvent test "2024-01-01T00:00:00Z" test test "Suite" "LoginTest"
              "local" lv st msg None 0 "selenium-ui-tests" [].

Definition timeout_failure : TestEvent :=
  event "testLogin" "FAILED" "ERROR" "Timeout waiting for element".
Definition assertion_failure : TestEvent :=
  event "testTitle" "FAILED" "ERROR" "AssertionError: expected true".
Definition passed_event : TestEvent :=
  event "testLogout" "PASSED" "INFO" "Test passed".
Definition started_event : TestEvent :=
  event "testLogout" "STARTED" "INFO" "Test started".

Definition corpus : list TestEvent :=
  [timeout_failure; passed_event; assertion_failure; started_event].

(** A service that has not indexed yet, and the same after indexing. *)
Definition fresh : AnalysisService :=
  AnalysisServiceImpl.__init__ (mkLogParser "test-events.jsonl" corpus).
Definition indexed : AnalysisService :=
  snd (AnalysisServiceImpl.load_and_index fresh).

(** Seven passed tests and three failures. *)
Definition ten_events : list TestEvent :=
  repeat passed_event 7 ++ repeat timeout_failure 3.

End Demo.

#[local] Existing Instance Demo.externals.

(** ** [log_parser.py]: reading the log file *)

Module LogParserImpl.

(** The object [json.loads] returns for a line of the log, as
    [parse_line] reads it: each key is absent or holds a value of the type
    the [TestEvent] annotation gives its field (["stacktrace"] absent or
    [null] is [None]). *)
Record LogRecord : Type := mkLogRecord {
  k_eventId : option string;
  k_timestamp : option string;
  k_testId : option string;
  k_testName : option string;
  k_suite : option string;
  k_className : option string;
  k_environment : option string;
  k_level : option string;
  k_status : option string;
  k_message : option string;
  k_stacktrace : option string;
  k_durationMs : option Z;
  k_service : option string;
  k_attributes : option (list (string * string))
}.

(** The three things [json.loads] can do with a line: raise
    [JSONDecodeError], return a value that is not an object (a number, a
    string, a list, [null], ...), or return an object. *)
Inductive Loaded : Type :=
| DecodeError
| NotAnObject
| Object (data : LogRecord).

(** The exception [parse_line] lets through: [data.get] on a value that is
    not a dictionary. *)
Inductive ParseError : Type :=
| AttributeError.

(** [data.get(key, default)] *)
Definition get {A : Type} (value : option A) (default : A) : A :=
  match value with
  | Some v => v
  | None => default
  end.

Section WithJson.
Variable json_loads : string -> Loaded.

Definition parse_line (line : string) : ParseError + option TestEvent :=
  match json_loads (PyStr.strip line) with
  | Object data =>
      inr (Some (mkTestEvent
                   (get (k_eventId data) "")
                   (get (k_timestamp data) "")
                   (get (k_testId data) "")
                   (get (k_testName data) "")
                   (get (k_suite data) "")
                   (get (k_className data) "")
                   (get (k_environment data) "local")
                   (get (k_level data) "INFO")
                   (get (k_status data) "")
                   (get (k_message data) "")
                   (k_stacktrace data)
                   (get (k_durationMs data) 0%Z)
                   (get (k_service data) "selenium-ui-tests")
                   (get (k_attributes data) [])))
  | NotAnObject => inl AttributeError
  | DecodeError => inr None
  end.

(** The loop of [parse_all] over the lines of the file, run to its end as
    [list(self.parse_all())] does: the events yielded, or the exception that
    stopped it. *)
Fixpoint parse_lines (lines : list string) : ParseError + list TestEvent :=
  match lines with
  | [] => inr []
  | line :: rest =>
      if PyStr.truthy (PyStr.strip line) then
        match parse_line line with
        | inl e => inl e
        | inr (Some event) =>
            match parse_lines rest with
            | inl e => inl e
            | inr events => inr (event :: events)
            end
        | inr None => parse_lines rest
        end
      else parse_lines rest
  end.

(** [file] is [None] when no file exists at [log_path], and its lines
    otherwise. *)
Definition parse_all (file : option (list string)) : ParseError + list TestEvent :=
  match file with
  | None => inr []
  | Some lines => parse_lines lines
  end.

Definition get_all_events (file : option (list string))
    : ParseError + list TestEvent :=
  parse_all file.

Definition get_failures (file : option (list string))
    : ParseError + list TestEvent :=
  match parse_all file with
  | inl e => inl e
  | inr events => inr (filter is_failure events)
  end.

End WithJson.
End LogParserImpl.

(** ** [vector_store.py]: the collection behind the store *)

Module QdrantCollections.

Inductive Distance : Type :=
| COSINE
| EUCLID
| DOT
| MANHATTAN.

Record Collection : Type := mkCollection {
  c_name : string;
  c_size : Z;
  c_distance : Distance;
  c_points : list PointStruct
}.

(** [settings.EMBEDDING_DIMENSION] *)
Definition EMBEDDING_DIMENSION : Z := 384.

(** Modelled from the spec: the Qdrant client library is not part of the
    sources. A client is the list of its collections; [get_collections]
    lists them and [create_collection] adds an empty one. *)
Definition _ensure_collection (collection_name : string)
    (client : list Collection) : list Collection :=
  let exists_ := existsb (fun c => String.eqb (c_name c) collection_name) client in
  if negb exists_ then
    (client ++ [mkCollection collection_name EMBEDDING_DIMENSION COSINE []])%list
  else client.

(** [VectorStore(in_memory)]: the client after the constructor, from a new
    in-memory client or from the collections [server] holds. *)
Definition __init__ (in_memory : bool) (server : list Collection)
    : list Collection :=
  let client := if in_memory then [] else server in
  _ensure_collection settings.QDRANT_COLLECTION client.

End QdrantCollections.

(** ** [embedding_service.py]: the singleton *)

Module EmbeddingServiceImpl.

(** The instance: whether its [_model] attribute holds a loaded model. *)
Record Instance : Type := mkInstance {
  _model : bool
}.

(** The class attribute [_instance], and the number of times
    [SentenceTransformer(...)] has been called. *)
Record ClassState : Type := mkClassState {
  _instance : option Instance;
  model_loads : nat
}.

Definition initial : ClassState := mkClassState None 0.

Definition __new__ (cls : ClassState) : ClassState :=
  match _instance cls with
  | None => mkClassState (Some (mkInstance false)) (model_loads cls)
  | Some _ => cls
  end.

Definition __init__ (cls : ClassState) : ClassState :=
  match _instance cls with
  | Some self =>
      if negb (_model self)
      then mkClassState (Some (mkInstance true)) (S (model_loads cls))
      else cls
  | None => cls
  end.

(** [EmbeddingService()] *)
Definition construct (cls : ClassState) : ClassState := __init__ (__new__ cls).

End EmbeddingServiceImpl.

(** ** [api.py]: the endpoints *)

Record SimilarFailureQuery : Type := mkSimilarFailureQuery {
  q_error_message : string;
  q_top_k : Z
}.

Record AnalyzeFailureRequest : Type := mkAnalyzeFailureRequest {
  req_test_name : string;
  req_class_name : string;
  req_error_message : string;
  req_stacktrace : option string
}.


(** The dictionary [health_check] returns. *)
Record HealthResponse : Type := mkHealthResponse {
  h_status : string;
  h_log_path : string;
  h_log_exists : bool;
  h_indexed : bool;
  h_collection : option CollectionInfo
}.

Module Api.
Section WithExternals.
Context `{Externals}.

(** The parser a new [AnalysisService()] gets, over [settings.LOGS_PATH],
    and whether a file exists at that path. *)
Variable logs : LogParser.
Variable log_exists : bool.

(** The state of the module is the global [analysis_service]. *)
Definition get_analysis_service (analysis_service : option AnalysisService)
    : AnalysisService :=
  match analysis_service with
  | None => AnalysisServiceImpl.__init__ logs
  | Some service => service
  end.

(** [service = get_analysis_service()] followed by calls on [service]: the
    global holds the service as they leave it. *)
Definition with_service {A : Type} (m : Py AnalysisService A)
    : Py (option AnalysisService) A :=
  fun analysis_service =>
    let (r, service) := m (get_analysis_service analysis_service) in
    (r, Some service).

(** [if not service._indexed: service.load_and_index()] *)
Definition ensure_indexed : Py AnalysisService unit :=
  (indexed <- gets _indexed ;;
   if negb indexed
   then (AnalysisServiceImpl.load_and_index ;;; ret tt)
   else ret tt)%py.


Definition find_similar_failures (query : SimilarFailureQuery)
    : Py (option AnalysisService) (list SimilarityResult) :=
  with_service
    (ensure_indexed ;;;
     AnalysisServiceImpl.find_similar_failures
       (q_error_message query) (q_top_k query))%py.

(** The event [analyze_failure] builds from a request. *)
Definition mock_event (request : AnalyzeFailureRequest) : TestEvent :=
  mkTestEvent
    "query"
    ""
    (req_class_name request ++ "." ++ req_test_name request)
    (req_test_name request)
    "Query"
    (req_class_name request)
    "query"
    "ERROR"
    "FAILED"
    (req_error_message request)
    (req_stacktrace request)
    0
    "selenium-ui-tests"
    [].

Definition analyze_failure (request : AnalyzeFailureRequest)
    : Py (option AnalysisService) AnalysisResult :=
  with_service
    (ensure_indexed ;;;
     AnalysisServiceImpl.analyze_failure (mock_event request))%py.

Definition get_summary : Py (option AnalysisService) Summary :=
  with_service (ensure_indexed ;;; AnalysisServiceImpl.get_summary)%py.

Definition health_check : Py (option AnalysisService) HealthResponse :=
  with_service
    (indexed <- gets _indexed ;;
     collection <-
       (if indexed
        then (info <- AnalysisServiceImpl.on_vector_store
                        VectorStoreImpl.get_collection_info ;;
              ret (Some info))
        else ret None) ;;
     ret (mkHealthResponse "healthy" (log_path logs) log_exists indexed collection))%py.

End WithExternals.
End Api.

(** ** [report_generator.py]: the statistics of the report *)

Module Report.

(** The figures [generate_html_report] computes from the events before it
    renders them (it computes them when the log holds at least one event,
    and returns the empty string before that otherwise). *)
Record Statistics : Type := mkStatistics {
  st_total_tests : Z;
  st_passed : Z;
  st_failed : Z;
  st_pass_rate : PyNum.number;
  st_failures : list TestEvent;
  st_passes : list TestEvent;
  st_durations : list Z;
  st_avg_duration : PyNum.number;
  st_max_duration : Z
}.

(** [max(xs)] for a list that is not empty. *)
Definition max_of (first : Z) (rest : list Z) : Z := fold_left Z.max rest first.

Definition statistics (events : list TestEvent) : Statistics :=
  let total_tests :=
    len (filter (fun e => String.eqb (status e) "PASSED"
                          || String.eqb (status e) "FAILED") events) in
  let passed := len (filter (fun e => String.eqb (status e) "PASSED") events) in
  let failed := len (filter (fun e => String.eqb (status e) "FAILED") events) in
  let pass_rate :=
    if Z.ltb 0 total_tests
    then PyNum.Float (PrimFloat.mul (PyNum.truediv passed total_tests)
                                    (PyNum.float_of_int 100))
    else PyNum.Int 0 in
  let failures := filter (fun e => String.eqb (status e) "FAILED") events in
  let passes := filter (fun e => String.eqb (status e) "PASSED") events in
  let durations :=
    map duration_ms
        (filter (fun e => negb (Z.eqb (duration_ms e) 0)
                          && Z.ltb 0 (duration_ms e)) events) in
  let avg_duration :=
    match durations with
    | _ :: _ => PyNum.Float (PyNum.truediv (fold_left Z.add durations 0%Z)
                                           (len durations))
    | [] => PyNum.Int 0
    end in
  let max_duration :=
    match durations with
    | first :: rest => max_of first rest
    | [] => 0%Z
    end in
  mkStatistics total_tests passed failed pass_rate failures passes
               durations avg_duration max_duration.

End Report.

(** ** Vocabulary of the further statements *)

(** The count a counter holds for [k]; [0] when [k] is not a key. *)
Fixpoint counter_get (k : string) (c : Counter.t) : Z :=
  match c with
  | [] => 0%Z
  | (k', n) :: r => if String.eqb k' k then n else counter_get k r
  end.

(** The sum of the counts of a counter. *)
Definition counter_total (c : Counter.t) : Z :=
  fold_right (fun kn acc => (snd kn + acc)%Z) 0%Z c.

(** The number of occurrences of [k] in a list of keys. *)
Definition occurrences (k : string) (keys : list string) : Z :=
  len (filter (String.eqb k) keys).

(** Each count is at most the one before it. *)
Fixpoint counts_non_increasing (c : Counter.t) : bool :=
  match c with
  | a :: (b :: _) as rest => Z.leb (snd b) (snd a) && counts_non_increasing rest
  | _ => true
  end.

(** The event [e] with another stack trace. *)
Definition with_stacktrace (e : TestEvent) (st : option string) : TestEvent :=
  mkTestEvent (event_id e) (timestamp e) (test_id e) (test_name e) (suite e)
              (class_name e) (environment e) (level e) (status e) (message e)
              st (duration_ms e) (service e) (attributes e).

(** A line break between two pieces of text. *)
Definition line_break : string := String PyStr.newline EmptyString.

(** The lines [parse_all] looks at: those that are not blank and that
    [json.loads] decodes. *)
Definition is_record_line (json_loads : string -> LogParserImpl.Loaded)
    (line : string) : bool :=
  PyStr.truthy (PyStr.strip line)
  && match json_loads (PyStr.strip line) with
     | LogParserImpl.DecodeError => false
     | _ => true
     end.



(** The points held by the service behind the global, none when there is no
    service yet. *)
Definition service_points (analysis_service : option AnalysisService)
    : list PointStruct :=
  match analysis_service with
  | Some service => points (vector_store service)
  | None => []
  end.

(** The global holds a service and that service is indexed. *)
Definition service_indexed (analysis_service : option AnalysisService) : bool :=
  match analysis_service with
  | Some service => _indexed service
  | None => false
  end.

(** * Properties *)

(** ** The event model *)

Lemma stacktrace_truthy_ext (e1 e2 : TestEvent) :
  stacktrace e1 = stacktrace e2 -> stacktrace_truthy e1 = stacktrace_truthy e2.
Proof. unfold stacktrace_truthy. now intros ->. Qed.

Lemma is_failure_ext (e1 e2 : TestEvent) :
  status e1 = status e2 -> level e1 = level e2 -> is_failure e1 = is_failure e2.
Proof. unfold is_failure. now intros -> ->. Qed.

Lemma is_failure_spec (e : TestEvent) :
  is_failure e = true <-> status e = "FAILED" /\ level e = "ERROR".
Proof.
  unfold is_failure. rewrite andb_true_iff, !String.eqb_eq. tauto.
Qed.

(** C9. [to_embedding_text] and [failure_signature] are functions of the
    stored fields of the event alone: two events that agree on the fields
    read (test name, class, suite, message, stack trace, and for the
    signature status and level) give the same strings, whatever their other
    fields are; in particular two events with identical fields do. *)
Theorem embedding_text_and_signature_stable (e1 e2 : TestEvent) :
  test_name e1 = test_name e2 ->
  class_name e1 = class_name e2 ->
  suite e1 = suite e2 ->
  message e1 = message e2 ->
  stacktrace e1 = stacktrace e2 ->
  status e1 = status e2 ->
  level e1 = level e2 ->
  to_embedding_text e1 = to_embedding_text e2
  /\ failure_signature e1 = failure_signature e2.
Proof.
  intros Hn Hc Hs Hm Ht Hst Hl.
  unfold to_embedding_text, failure_signature.
  rewrite (stacktrace_truthy_ext e1 e2 Ht), (is_failure_ext e1 e2 Hst Hl).
  rewrite Hn, Hc, Hs, Hm. split; reflexivity.
Qed.

Lemma embedding_text_and_signature_stable_witness :
  let e1 := Demo.timeout_failure in
  let e2 := mkTestEvent "other-id" "2025-06-01T10:00:00Z" "other-test-id"
              (test_name e1) (suite e1) (class_name e1) "ci" (level e1)
              (status e1) (message e1) (stacktrace e1) 1500 "nightly"
              [("browser", "firefox")] in
  e1 <> e2
  /\ to_embedding_text e1 = to_embedding_text e2
  /\ failure_signature e1 = failure_signature e2.
Proof.
  split; [discriminate |].
  apply embedding_text_and_signature_stable; reflexivity.
Defined.

(** ** The vector store *)

Section VectorStoreFacts.
Context `{Externals}.

Lemma index_failure_non_failure (event : TestEvent) (vs : VectorStore) :
  is_failure event = false ->
  VectorStoreImpl.index_failure event vs
  = (Raise (ValueError "Can only index failure events"), vs).
Proof.
  intros Hf. unfold VectorStoreImpl.index_failure. now rewrite Hf.
Qed.

Lemma index_failure_failure (event : TestEvent) (vs : VectorStore) :
  is_failure event = true ->
  VectorStoreImpl.index_failure event vs
  = (Return (uuid4 (uuid_drawn vs)),
     mkVectorStore (collection_name vs)
       (Qdrant.upsert (indexed_point event (uuid_drawn vs)) (points vs))
       (S (uuid_drawn vs))
       (calls vs ++ index_calls event (uuid_drawn vs))).
Proof.
  intros Hf. unfold VectorStoreImpl.index_failure. rewrite Hf. cbn.
  unfold append, index_calls, indexed_point. cbn.
  now rewrite <- !app_assoc.
Qed.

Lemma for_each_index_failure (failures : list TestEvent) :
  forall vs,
    forallb is_failure failures = true ->
    for_each failures VectorStoreImpl.index_failure vs
    = (Return tt,
       mkVectorStore (collection_name vs)
         (points_after failures (uuid_drawn vs) (points vs))
         (uuid_drawn vs + List.length failures)
         (calls vs ++ calls_of failures (uuid_drawn vs))).
Proof.
  induction failures as [| e r IH]; intros vs Hall.
  - cbn. rewrite Nat.add_0_r, app_nil_r. now destruct vs.
  - cbn in Hall. apply andb_true_iff in Hall as [He Hr].
    cbn [for_each]. unfold bind at 1.
    rewrite (index_failure_failure e vs He).
    rewrite (IH _ Hr). cbn.
    rewrite <- app_assoc. do 3 f_equal. lia.
Qed.

Lemma forallb_filter {A : Type} (p : A -> bool) (l : list A) :
  forallb p (filter p l) = true.
Proof.
  induction l as [| a l IH]; cbn; [reflexivity |].
  destruct (p a) eqn:Ep; cbn; [now rewrite Ep |]; assumption.
Qed.

Lemma filter_idem {A : Type} (p : A -> bool) (l : list A) :
  filter p (filter p l) = filter p l.
Proof.
  induction l as [| a l IH]; cbn; [reflexivity |].
  destruct (p a) eqn:Ep; cbn; [rewrite Ep, IH |]; auto.
Qed.

Lemma index_failures_run (events : list TestEvent) (vs : VectorStore) :
  let failures := filter is_failure events in
  VectorStoreImpl.index_failures events vs
  = (Return (len failures),
     mkVectorStore (collection_name vs)
       (points_after failures (uuid_drawn vs) (points vs))
       (uuid_drawn vs + List.length failures)
       (calls vs ++ calls_of failures (uuid_drawn vs))).
Proof.
  cbn. unfold VectorStoreImpl.index_failures, bind.
  rewrite for_each_index_failure by apply forallb_filter. reflexivity.
Qed.

End VectorStoreFacts.

(** C10. [index_failure] on an event that is not a failure raises
    [ValueError("Can only index failure events")] and leaves the store as it
    was: no embedding was requested, no identifier drawn, nothing written. *)
Theorem index_failure_rejects_non_failure `{Externals}
    (event : TestEvent) (vs : VectorStore) :
  is_failure event = false ->
  VectorStoreImpl.index_failure event vs
  = (Raise (ValueError "Can only index failure events"), vs).
Proof. apply index_failure_non_failure. Qed.

Lemma index_failure_rejects_non_failure_witness :
  is_failure Demo.passed_event = false
  /\ VectorStoreImpl.index_failure Demo.passed_event (vector_store Demo.indexed)
     = (Raise (ValueError "Can only index failure events"),
        vector_store Demo.indexed).
Proof.
  split; [reflexivity |].
  apply (index_failure_rejects_non_failure Demo.passed_event); reflexivity.
Defined.

(** ** The analysis engine *)

Section AnalysisServiceFacts.
Context `{Externals}.

Lemma on_vector_store_indexed {A : Type} (m : Py VectorStore A)
    (s : AnalysisService) :
  _indexed (snd (AnalysisServiceImpl.on_vector_store m s)) = _indexed s.
Proof.
  unfold AnalysisServiceImpl.on_vector_store.
  now destruct (m (vector_store s)).
Qed.

Lemma on_vector_store_parser {A : Type} (m : Py VectorStore A)
    (s : AnalysisService) :
  parser (snd (AnalysisServiceImpl.on_vector_store m s)) = parser s.
Proof.
  unfold AnalysisServiceImpl.on_vector_store.
  now destruct (m (vector_store s)).
Qed.

Lemma load_and_index_run (s : AnalysisService) :
  let events := get_all_events (parser s) in
  AnalysisServiceImpl.load_and_index s
  = (Return
       (mkIndexStats
          (len events)
          (len (filter is_failure events))
          (len (filter (fun e => String.eqb (status e) "PASSED") events))
          (len (filter (fun e => String.eqb (status e) "STARTED") events))),
     loaded s).
Proof.
  cbn. unfold AnalysisServiceImpl.load_and_index, bind, gets.
  unfold AnalysisServiceImpl.on_vector_store.
  rewrite index_failures_run, filter_idem. reflexivity.
Qed.

Lemma find_similar_failures_indexed (m : string) (k : Z) (s : AnalysisService) :
  _indexed s = true ->
  AnalysisServiceImpl.find_similar_failures m k s
  = AnalysisServiceImpl.on_vector_store
      (VectorStoreImpl.search_similar m (Some k) None) s.
Proof.
  intros Hi. unfold AnalysisServiceImpl.find_similar_failures, bind, gets.
  rewrite Hi. reflexivity.
Qed.

Lemma find_similar_failures_uninitialized (m : string) (k : Z)
    (s : AnalysisService) :
  _indexed s = false ->
  AnalysisServiceImpl.find_similar_failures m k s
  = AnalysisServiceImpl.on_vector_store
      (VectorStoreImpl.search_similar m (Some k) None)
      (snd (AnalysisServiceImpl.load_and_index s)).
Proof.
  intros Hi. unfold AnalysisServiceImpl.find_similar_failures, bind, gets.
  rewrite Hi. cbn [negb]. unfold bind.
  rewrite load_and_index_run. reflexivity.
Qed.

Lemma find_similar_failures_sets_indexed (m : string) (k : Z)
    (s : AnalysisService) :
  _indexed (snd (AnalysisServiceImpl.find_similar_failures m k s)) = true.
Proof.
  destruct (_indexed s) eqn:Hi.
  - rewrite find_similar_failures_indexed, on_vector_store_indexed; assumption.
  - rewrite find_similar_failures_uninitialized, on_vector_store_indexed,
      load_and_index_run by assumption.
    reflexivity.
Qed.

Lemma analyze_failure_non_failure (event : TestEvent) (s : AnalysisService) :
  is_failure event = false ->
  AnalysisServiceImpl.analyze_failure event s
  = (Return (ErrorDict "Not a failure event"), s).
Proof.
  intros Hf. unfold AnalysisServiceImpl.analyze_failure. now rewrite Hf.
Qed.

Lemma analyze_failure_failure (event : TestEvent) (s : AnalysisService) :
  is_failure event = true ->
  AnalysisServiceImpl.analyze_failure event s
  = let r := AnalysisServiceImpl.find_similar_failures
               (to_embedding_text event) 5 s in
    match fst r with
    | Return similar =>
        let patterns := _extract_patterns event similar in
        (Return (ReportDict
           (mkAnalysisReport (test_name event) (class_name event)
              (message event) similar patterns
              (_generate_recommendation event similar patterns))),
         snd r)
    | Raise e => (Raise e, snd r)
    end.
Proof.
  intros Hf. unfold AnalysisServiceImpl.analyze_failure. rewrite Hf.
  cbn [negb]. unfold bind at 1.
  destruct (AnalysisServiceImpl.find_similar_failures _ _ s) as [[similar | e] s'];
    reflexivity.
Qed.

Lemma run_keeps_indexed (op : Operation) (s : AnalysisService) :
  _indexed s = true -> _indexed (run op s) = true.
Proof.
  intros Hi. destruct op as [| m k | e |]; cbn [run].
  - now rewrite load_and_index_run.
  - apply find_similar_failures_sets_indexed.
  - destruct (is_failure e) eqn:Hf.
    + rewrite (analyze_failure_failure e s Hf). cbn zeta.
      pose proof (find_similar_failures_sets_indexed (to_embedding_text e) 5 s) as Hs.
      destruct (AnalysisServiceImpl.find_similar_failures _ _ s) as [[similar | x] s'];
        exact Hs.
    + now rewrite (analyze_failure_non_failure e s Hf).
  - unfold AnalysisServiceImpl.get_summary, bind, gets.
    pose proof (on_vector_store_indexed VectorStoreImpl.get_collection_info s) as Hs.
    destruct (AnalysisServiceImpl.on_vector_store _ s) as [[info | x] s'];
      cbn in *; congruence.
Qed.

Lemma run_all_keeps_indexed (ops : list Operation) :
  forall s, _indexed s = true -> _indexed (run_all ops s) = true.
Proof.
  induction ops as [| op ops IH]; intros s Hi; cbn; [assumption |].
  apply IH, run_keeps_indexed, Hi.
Qed.

End AnalysisServiceFacts.

Lemma recurring_spec (event : TestEvent) (similar : list SimilarityResult) :
  recurring (_extract_patterns event similar) = true
  <-> exists r, In r similar /\ PrimFloat.ltb 0.85%float (score r) = true.
Proof.
  destruct similar as [| r0 rest].
  - cbn. split; [discriminate | intros [r [[] _]]].
  - unfold _extract_patterns. cbn [recurring].
    rewrite andb_true_iff, existsb_exists. split.
    + intros [_ Hex]. exact Hex.
    + intros Hex. split; [| exact Hex].
      unfold len. cbn [List.length]. apply Z.ltb_lt. lia.
Qed.

(** C3, as the code has it. [analyze_failure] on an event that is not a
    failure returns the dictionary [{"error": "Not a failure event"}] as an
    ordinary result and leaves the engine as it was: nothing is indexed,
    nothing is queried, the collection keeps its entries and the indexed
    flag its value. *)
Theorem analyze_failure_returns_error_dict `{Externals}
    (event : TestEvent) (s : AnalysisService) :
  is_failure event = false ->
  AnalysisServiceImpl.analyze_failure event s
  = (Return (ErrorDict "Not a failure event"), s).
Proof. apply analyze_failure_non_failure. Qed.

Lemma analyze_failure_returns_error_dict_witness :
  is_failure Demo.passed_event = false
  /\ AnalysisServiceImpl.analyze_failure Demo.passed_event Demo.fresh
     = (Return (ErrorDict "Not a failure event"), Demo.fresh).
Proof.
  split; [reflexivity |].
  apply (analyze_failure_returns_error_dict Demo.passed_event); reflexivity.
Defined.

(** C3, as stated, fails: on an event that passed, [analyze_failure] does
    not raise; the call completes with a dictionary as its value. *)
Lemma analyze_failure_does_not_raise :
  is_failure Demo.passed_event = false
  /\ ~ raises (AnalysisServiceImpl.analyze_failure Demo.passed_event) Demo.fresh.
Proof.
  split; [reflexivity |].
  intros [e He]. vm_compute in He. discriminate He.
Qed.

(** C4. The [recurring] flag of the pattern summary is true exactly when
    one of the retrieved results has a score above 0.85; it is false for an
    empty result list; and this holds of the patterns and the similar
    failures of every report [analyze_failure] returns. *)
Theorem recurring_iff_score_above_085 `{Externals} :
  (forall event similar,
      recurring (_extract_patterns event similar) = true
      <-> exists r, In r similar /\ PrimFloat.ltb 0.85%float (score r) = true)
  /\ (forall event, recurring (_extract_patterns event []) = false)
  /\ (forall event s,
        match fst (AnalysisServiceImpl.analyze_failure event s) with
        | Return (ReportDict report) =>
            recurring (patterns report) = true
            <-> exists r, In r (similar_failures report)
                          /\ PrimFloat.ltb 0.85%float (score r) = true
        | _ => True
        end).
Proof.
  split; [exact recurring_spec |]. split; [reflexivity |].
  intros event s. destruct (is_failure event) eqn:Hf.
  - rewrite (analyze_failure_failure event s Hf). cbn zeta.
    destruct (fst (AnalysisServiceImpl.find_similar_failures _ _ s))
      as [similar | e]; cbn; [apply recurring_spec | exact I].
  - rewrite (analyze_failure_non_failure event s Hf). exact I.
Qed.

(** C5. [load_and_index] returns normally with the four counts: all events,
    the events that are failures (status FAILED and level ERROR), the events
    with status PASSED and those with status STARTED. It leaves the flag
    set, and the external calls it made are those of indexing each failure
    of the log in order: the events that are not failures are passed over
    and every failure after them is still indexed. [index_failures] on a
    mixed batch likewise returns the number of failures in it and indexes
    each of them. *)
Theorem load_and_index_counts `{Externals} (s : AnalysisService) :
  let events := get_all_events (parser s) in
  let failures := filter is_failure events in
  let vs := vector_store s in
  (exists s',
      AnalysisServiceImpl.load_and_index s
      = (Return
           (mkIndexStats
              (len events)
              (len failures)
              (len (filter (fun e => String.eqb (status e) "PASSED") events))
              (len (filter (fun e => String.eqb (status e) "STARTED") events))),
         s')
      /\ _indexed s' = true
      /\ calls (vector_store s')
         = (calls vs ++ calls_of failures (uuid_drawn vs))%list
      /\ points (vector_store s') = points_after failures (uuid_drawn vs) (points vs))
  /\ (forall e, In e failures
                <-> In e events /\ status e = "FAILED" /\ level e = "ERROR")
  /\ (forall batch store,
        exists store',
          VectorStoreImpl.index_failures batch store
          = (Return (len (filter is_failure batch)), store')
          /\ calls store'
             = (calls store
                ++ calls_of (filter is_failure batch) (uuid_drawn store))%list
          /\ points store'
             = points_after (filter is_failure batch) (uuid_drawn store)
                            (points store)).
Proof.
  cbn zeta. split; [| split].
  - exists (loaded s). rewrite load_and_index_run. repeat split.
  - intros e. rewrite filter_In, is_failure_spec. reflexivity.
  - intros batch store. eexists. rewrite index_failures_run.
    repeat split.
Qed.

(** C8. A new engine is not indexed; [find_similar_failures] on an engine
    that is not indexed is [load_and_index] (which returns normally)
    followed by the query on the state it leaves; and from an indexed
    engine no sequence of operations leads to one that is not indexed. *)
Theorem indexed_flag_state_machine `{Externals} :
  (forall p, _indexed (AnalysisServiceImpl.__init__ p) = false)
  /\ (forall m k s,
        _indexed s = false ->
        (exists stats,
            AnalysisServiceImpl.load_and_index s = (Return stats, loaded s))
        /\ AnalysisServiceImpl.find_similar_failures m k s
           = AnalysisServiceImpl.on_vector_store
               (VectorStoreImpl.search_similar m (Some k) None) (loaded s))
  /\ (forall ops s, _indexed s = true -> _indexed (run_all ops s) = true).
Proof.
  split; [reflexivity |]. split.
  - intros m k s Hi. split.
    + eexists. apply load_and_index_run.
    + rewrite (find_similar_failures_uninitialized m k s Hi).
      now rewrite load_and_index_run.
  - intros ops s. apply run_all_keeps_indexed.
Qed.

(** ** The summary *)

Lemma filter_length_or {A : Type} (p q : A -> bool) (l : list A) :
  (forall a, p a = true -> q a = false) ->
  List.length (filter (fun a => p a || q a) l)
  = (List.length (filter p l) + List.length (filter q l))%nat.
Proof.
  intros Hdisj. induction l as [| a l IH]; cbn; [reflexivity |].
  destruct (p a) eqn:Ep; cbn.
  - rewrite (Hdisj a Ep). cbn. now rewrite IH.
  - destruct (q a); cbn; rewrite IH; lia.
Qed.

Lemma filter_length_mono {A : Type} (p q : A -> bool) (l : list A) :
  (forall a, p a = true -> q a = true) ->
  (List.length (filter p l) <= List.length (filter q l))%nat.
Proof.
  intros Himp. induction l as [| a l IH]; cbn; [lia |].
  destruct (p a) eqn:Ep.
  - rewrite (Himp a Ep). cbn. lia.
  - destruct (q a); cbn; lia.
Qed.

Lemma passed_not_failure (e : TestEvent) :
  is_passed e = true -> is_failure e = false.
Proof.
  unfold is_passed, is_failure. intros Hp. apply String.eqb_eq in Hp.
  now rewrite Hp.
Qed.

Lemma passed_or_failure_is_test (e : TestEvent) :
  is_passed e || is_failure e = true -> is_test e = true.
Proof.
  unfold is_passed, is_failure, is_test.
  destruct (String.eqb (status e) "PASSED"); [reflexivity |].
  destruct (String.eqb (status e) "FAILED"); [reflexivity | discriminate].
Qed.

(** When the passed events and the failures make up the whole corpus, every
    event counts as a test. *)
Lemma all_tests (events : list TestEvent) :
  (List.length (filter is_passed events)
   + List.length (filter is_failure events))%nat = List.length events ->
  List.length (filter is_test events) = List.length events.
Proof.
  intros Hsum.
  pose proof (filter_length_or is_passed is_failure events passed_not_failure) as Hor.
  pose proof (filter_length_mono (fun e => is_passed e || is_failure e) is_test
                events passed_or_failure_is_test) as Hmono.
  pose proof (filter_length_le is_test events) as Hle.
  lia.
Qed.

Lemma get_summary_run `{Externals} (s : AnalysisService) :
  let events := get_all_events (parser s) in
  let failures := filter is_failure events in
  exists s',
    AnalysisServiceImpl.get_summary s
    = (Return
         (mkSummary
            (len (filter is_test events))
            (len failures)
            (match events with
             | _ :: _ =>
                 PyNum.Float
                   (PrimFloat.mul (PyNum.truediv (len failures) (len events))
                                  (PyNum.float_of_int 100))
             | [] => PyNum.Int 0
             end)
            (Counter.most_common None (Counter.of_list (map class_name failures)))
            (Counter.most_common None (Counter.of_list (map test_name failures)))
            (mkCollectionInfo (collection_name (vector_store s))
                              (len (points (vector_store s))))),
       s')
    /\ parser s' = parser s
    /\ _indexed s' = _indexed s
    /\ points (vector_store s') = points (vector_store s).
Proof.
  cbn zeta. eexists. split; [| split; [| split]].
  - unfold AnalysisServiceImpl.get_summary, bind, gets. cbn. reflexivity.
  - reflexivity.
  - reflexivity.
  - reflexivity.
Qed.

(** C7. Over a log of exactly ten events, seven with status PASSED and three
    failures (status FAILED, level ERROR), [get_summary] returns
    [total_tests = 10], [total_failures = 3] and [failure_rate = 30.0]. *)
Theorem get_summary_seven_passed_three_failed `{Externals} (s : AnalysisService) :
  let events := get_all_events (parser s) in
  len events = 10%Z ->
  len (filter (fun e => String.eqb (status e) "PASSED") events) = 7%Z ->
  len (filter (fun e => String.eqb (status e) "FAILED"
                        && String.eqb (level e) "ERROR") events) = 3%Z ->
  exists summary s',
    AnalysisServiceImpl.get_summary s = (Return summary, s')
    /\ total_tests summary = 10%Z
    /\ total_failures summary = 3%Z
    /\ failure_rate summary = PyNum.Float 30%float.
Proof.
  cbn zeta. intros Hall Hpassed Hfailed.
  change (fun e => String.eqb (status e) "PASSED") with is_passed in Hpassed.
  change (fun e => String.eqb (status e) "FAILED" && String.eqb (level e) "ERROR")
    with is_failure in Hfailed.
  destruct (get_summary_run s) as [s' [Hrun _]]. cbn zeta in Hrun.
  eexists. exists s'. split; [exact Hrun |].
  cbn [total_tests total_failures failure_rate].
  assert (Htests : len (filter is_test (get_all_events (parser s))) = 10%Z).
  { unfold len in *. rewrite all_tests; [exact Hall | lia]. }
  split; [exact Htests |]. split; [exact Hfailed |].
  rewrite Hfailed, Hall.
  destruct (get_all_events (parser s)) as [| e0 rest]; [discriminate Hall |].
  vm_compute. reflexivity.
Qed.

Lemma get_summary_seven_passed_three_failed_witness :
  let s := AnalysisServiceImpl.__init__ (mkLogParser "test-events.jsonl" Demo.ten_events) in
  exists summary s',
    AnalysisServiceImpl.get_summary s = (Return summary, s')
    /\ total_tests summary = 10%Z
    /\ total_failures summary = 3%Z
    /\ failure_rate summary = PyNum.Float 30%float.
Proof.
  apply (get_summary_seven_passed_three_failed
           (AnalysisServiceImpl.__init__
              (mkLogParser "test-events.jsonl" Demo.ten_events)));
    reflexivity.
Defined.

(** ** The recommendation *)

Lemma prefix_refl (s : string) : String.prefix s s = true.
Proof.
  induction s as [| c s IH]; cbn; [reflexivity |].
  destruct (ascii_dec c c) as [_ | Hne]; [exact IH | now elim Hne].
Qed.

Lemma contains_refl (s : string) : PyStr.contains s s = true.
Proof.
  destruct s; cbn [PyStr.contains]; now rewrite prefix_refl.
Qed.

Lemma contains_app_l (needle a b : string) :
  PyStr.contains needle b = true -> PyStr.contains needle (a ++ b) = true.
Proof.
  intros Hb. induction a as [| c a IH]; cbn; [exact Hb |].
  rewrite IH. apply orb_true_r.
Qed.

Lemma contains_join_last (sep x : string) (l : list string) :
  PyStr.contains x (PyStr.join sep (l ++ [x])) = true.
Proof.
  unfold PyStr.join. induction l as [| a l IH]; cbn.
  - apply contains_refl.
  - destruct (l ++ [x])%list as [| b r] eqn:El.
    + now destruct l.
    + now do 2 apply contains_app_l.
Qed.

Lemma has_char_app (c : ascii) (a b : string) :
  has_char c (a ++ b) = has_char c a || has_char c b.
Proof.
  induction a as [| c' a IH]; cbn; [reflexivity |].
  now rewrite IH, orb_assoc.
Qed.

Lemma prefix_has_char (c : ascii) (needle : string) :
  forall hay, String.prefix needle hay = true ->
              has_char c needle = true -> has_char c hay = true.
Proof.
  induction needle as [| a needle IH]; intros hay Hp Hc;
    [discriminate Hc |].
  destruct hay as [| b hay]; cbn in Hp; [discriminate Hp |].
  destruct (ascii_dec a b) as [-> | _]; [| discriminate Hp].
  cbn in Hc |- *. apply orb_true_iff in Hc as [Hc | Hc].
  - now rewrite Hc.
  - rewrite (IH hay Hp Hc). apply orb_true_r.
Qed.

Lemma contains_has_char (c : ascii) (needle hay : string) :
  PyStr.contains needle hay = true ->
  has_char c needle = true -> has_char c hay = true.
Proof.
  intros Hin Hc. induction hay as [| b hay IH]; cbn in Hin.
  - rewrite orb_false_r in Hin. now apply (prefix_has_char c needle).
  - apply orb_true_iff in Hin as [Hp | Hr].
    + now apply (prefix_has_char c needle).
    + cbn. rewrite (IH Hr). apply orb_true_r.
Qed.

Lemma has_char_join (c : ascii) (sep : string) (l : list string) :
  has_char c sep = false ->
  Forall (fun part => has_char c part = false) l ->
  has_char c (PyStr.join sep l) = false.
Proof.
  intros Hsep Hall. unfold PyStr.join.
  induction Hall as [| a l Ha Hl IH]; cbn; [reflexivity |].
  destruct l as [| b r]; [exact Ha |].
  now rewrite !has_char_app, Ha, Hsep, IH.
Qed.

Lemma has_char_uint (d : Decimal.uint) :
  has_char check_mark_byte (NilEmpty.string_of_uint d) = false.
Proof. induction d; cbn; auto. Qed.

Lemma has_char_of_int (n : Z) :
  has_char check_mark_byte (PyStr.of_int n) = false.
Proof.
  unfold PyStr.of_int, NilZero.string_of_int.
  destruct (Z.to_int n) as [d | d]; unfold NilZero.string_of_uint;
    destruct d; cbn; auto using has_char_uint.
Qed.

Lemma has_char_recurring (n : Z) :
  has_char check_mark_byte (Guidance.recurring n) = false.
Proof.
  unfold Guidance.recurring.
  rewrite !has_char_app, has_char_of_int. reflexivity.
Qed.

Lemma In_existsb (x : string) (l : list string) :
  In x l <-> existsb (String.eqb x) l = true.
Proof.
  rewrite existsb_exists. split.
  - intros Hin. exists x. split; [exact Hin | apply String.eqb_refl].
  - intros [y [Hin Heq]]. apply String.eqb_eq in Heq. now subst.
Qed.

Lemma is_text_guidance_recurring (n : Z) :
  is_text_guidance (Guidance.recurring n) = false.
Proof. reflexivity. Qed.

Lemma recurring_not_text_guidance (n : Z) :
  String.eqb Guidance.timeout (Guidance.recurring n) = false
  /\ String.eqb Guidance.locator (Guidance.recurring n) = false
  /\ String.eqb Guidance.assertion (Guidance.recurring n) = false.
Proof. repeat split. Qed.

(** The parts that precede the text-matching rule: the two warnings. *)
Lemma recommendations_shape (event : TestEvent)
    (similar : list SimilarityResult) (patterns : Patterns) :
  let msg := PyStr.lower (message event) in
  exists pre,
    Forall (fun part => has_char check_mark_byte part = false
                        /\ is_text_guidance part = false) pre
    /\ recommendations_of event similar patterns
       = if PyStr.contains "timeout" msg then (pre ++ [Guidance.timeout])%list
         else if PyStr.contains "element not found" msg
                 || PyStr.contains "nosuchelement" msg
         then (pre ++ [Guidance.locator])%list
         else if PyStr.contains "assertion" msg
         then (pre ++ [Guidance.assertion])%list
         else match pre with
              | [] => [Guidance.fallback]
              | _ :: _ => pre
              end.
Proof.
  cbn zeta. unfold recommendations_of, append.
  exists ((if recurring patterns
           then [Guidance.recurring (frequency patterns)] else [])
          ++ (if PyNum.gt_float
                   match avg_similarity patterns with
                   | Some a => a
                   | None => PyNum.Int 0
                   end 0.9%float
              then [Guidance.high_similarity] else []))%list.
  split.
  - apply Forall_app. split.
    + destruct (recurring patterns); constructor; [| constructor].
      split; [apply has_char_recurring | apply is_text_guidance_recurring].
    + destruct (PyNum.gt_float _ _); constructor; [| constructor].
      split; reflexivity.
  - set (msg := PyStr.lower (message event)).
    destruct (recurring patterns); destruct (PyNum.gt_float _ _);
      destruct (PyStr.contains "timeout" msg);
      destruct (PyStr.contains "element not found" msg
                || PyStr.contains "nosuchelement" msg);
      destruct (PyStr.contains "assertion" msg); reflexivity.
Qed.

Lemma pre_no_text_guidance (pre : list string) (g : string) :
  Forall (fun part => has_char check_mark_byte part = false
                      /\ is_text_guidance part = false) pre ->
  is_text_guidance g = true -> ~ In g pre.
Proof.
  intros Hall Hg Hin. rewrite Forall_forall in Hall.
  destruct (Hall g Hin) as [_ Hn]. congruence.
Qed.

Lemma pre_filter_text_guidance (pre : list string) :
  Forall (fun part => has_char check_mark_byte part = false
                      /\ is_text_guidance part = false) pre ->
  filter is_text_guidance pre = [].
Proof.
  induction 1 as [| a l [_ Ha] _ IH]; cbn [filter]; [reflexivity |].
  now rewrite Ha.
Qed.

(** C2. Of the three text-matching rules at most one contributes to the
    recommendation, the first that matches the lowercased message in the
    order timeout, element-not-found or nosuchelement, assertion. When the
    message holds "timeout" (in any case) the recommendation returned holds
    the timeout guidance and not the assertion guidance, whether or not the
    message also holds "assertion". *)
Theorem text_rules_first_match_wins (event : TestEvent)
    (similar : list SimilarityResult) (patterns : Patterns) :
  let msg := PyStr.lower (message event) in
  let parts := recommendations_of event similar patterns in
  let has_timeout := PyStr.contains "timeout" msg in
  let has_locator := PyStr.contains "element not found" msg
                     || PyStr.contains "nosuchelement" msg in
  let has_assertion := PyStr.contains "assertion" msg in
  _generate_recommendation event similar patterns = PyStr.join " " parts
  /\ (List.length (filter is_text_guidance parts) <= 1)%nat
  /\ (In Guidance.timeout parts <-> has_timeout = true)
  /\ (In Guidance.locator parts <-> has_timeout = false /\ has_locator = true)
  /\ (In Guidance.assertion parts
      <-> has_timeout = false /\ has_locator = false /\ has_assertion = true)
  /\ (has_timeout = true ->
      PyStr.contains Guidance.timeout
        (_generate_recommendation event similar patterns) = true
      /\ PyStr.contains Guidance.assertion
           (_generate_recommendation event similar patterns) = false).
Proof.
  cbn zeta. unfold _generate_recommendation.
  destruct (recommendations_shape event similar patterns) as [pre [Hpre Hshape]].
  cbn zeta in Hshape. rewrite Hshape. clear Hshape.
  set (msg := PyStr.lower (message event)).
  pose proof (pre_no_text_guidance pre Guidance.timeout Hpre eq_refl) as Nt.
  pose proof (pre_no_text_guidance pre Guidance.locator Hpre eq_refl) as Nl.
  pose proof (pre_no_text_guidance pre Guidance.assertion Hpre eq_refl) as Na.
  pose proof (pre_filter_text_guidance pre Hpre) as Hfilter.
  split; [reflexivity |].
  destruct (PyStr.contains "timeout" msg) eqn:Et;
    [| destruct (PyStr.contains "element not found" msg
                 || PyStr.contains "nosuchelement" msg) eqn:El;
       [| destruct (PyStr.contains "assertion" msg) eqn:Ea]].
  - (* timeout *)
    split; [rewrite filter_app, Hfilter; cbn; lia |].
    split; [split; [reflexivity | intros _; apply in_or_app; right; now left] |].
    split; [split; [| intros [Hf _]; discriminate Hf];
            intros Hin; apply in_app_or in Hin as [Hin | [Hin | []]];
            [now elim Nl | discriminate Hin] |].
    split; [split; [| intros [Hf _]; discriminate Hf];
            intros Hin; apply in_app_or in Hin as [Hin | [Hin | []]];
            [now elim Na | discriminate Hin] |].
    intros _. split; [apply contains_join_last |].
    destruct (PyStr.contains Guidance.assertion _) eqn:Ec; [| reflexivity].
    apply (contains_has_char check_mark_byte) in Ec; [| reflexivity].
    rewrite has_char_join in Ec; [discriminate Ec | reflexivity |].
    apply Forall_app. split.
    + eapply Forall_impl; [| exact Hpre]. now intros part [Hc _].
    + constructor; [reflexivity | constructor].
  - (* element not found / nosuchelement *)
    split; [rewrite filter_app, Hfilter; cbn; lia |].
    split; [split; [| intros Hf; discriminate Hf];
            intros Hin; apply in_app_or in Hin as [Hin | [Hin | []]];
            [now elim Nt | discriminate Hin] |].
    split; [split; [now split | intros _; apply in_or_app; right; now left] |].
    split; [split; [| intros [_ [Hf _]]; discriminate Hf];
            intros Hin; apply in_app_or in Hin as [Hin | [Hin | []]];
            [now elim Na | discriminate Hin] |].
    intros Hf; discriminate Hf.
  - (* assertion *)
    split; [rewrite filter_app, Hfilter; cbn; lia |].
    split; [split; [| intros Hf; discriminate Hf];
            intros Hin; apply in_app_or in Hin as [Hin | [Hin | []]];
            [now elim Nt | discriminate Hin] |].
    split; [split; [| intros [_ Hf]; discriminate Hf];
            intros Hin; apply in_app_or in Hin as [Hin | [Hin | []]];
            [now elim Nl | discriminate Hin] |].
    split; [split; [now repeat split | intros _; apply in_or_app; right; now left] |].
    intros Hf; discriminate Hf.
  - (* no text rule matches *)
    assert (Hnone : forall g, is_text_guidance g = true ->
                     ~ In g match pre with [] => [Guidance.fallback] | _ :: _ => pre end).
    { intros g Hg. destruct pre as [| a pre'].
      - intros [Hin | []]. subst g. discriminate Hg.
      - now apply pre_no_text_guidance. }
    split.
    { destruct pre as [| a pre']; [cbn; lia | rewrite Hfilter; cbn; lia]. }
    split; [split; [intros Hin; now elim (Hnone Guidance.timeout eq_refl Hin)
                   | intros Hf; discriminate Hf] |].
    split; [split; [intros Hin; now elim (Hnone Guidance.locator eq_refl Hin)
                   | intros [_ Hf]; discriminate Hf] |].
    split; [split; [intros Hin; now elim (Hnone Guidance.assertion eq_refl Hin)
                   | intros [_ [_ Hf]]; discriminate Hf] |].
    intros Hf; discriminate Hf.
Qed.

(** ** The similarity query *)

Section SearchFacts.
Context `{Externals}.

Lemma search_similar_run (query_text : string) (top_k : option Z)
    (threshold : option float) (vs : VectorStore) :
  let k := PyNum.int_or top_k settings.TOP_K_RESULTS in
  let t := PyNum.float_or threshold settings.SIMILARITY_THRESHOLD in
  let q := encode_single query_text in
  VectorStoreImpl.search_similar query_text top_k threshold vs
  = (Return (map VectorStoreImpl.hit_to_dict (Qdrant.query_points (points vs) q k t)),
     mkVectorStore (collection_name vs) (points vs) (uuid_drawn vs)
       (calls vs ++ [CallEncodeSingle query_text; CallQueryPoints q k t])).
Proof.
  cbn. unfold append. now rewrite <- app_assoc.
Qed.

Lemma In_firstn {A : Type} (x : A) (n : nat) :
  forall l, In x (firstn n l) -> In x l.
Proof.
  induction n as [| n IH]; intros [| a l]; cbn; try tauto.
  intros [-> | Hin]; [now left | right; now apply IH].
Qed.





End SearchFacts.

(** ** Order of binary64 numbers *)




Section SortFacts.







End SortFacts.


(** The arguments [search_similar] hands to the index: the defaults 5 and
    0.3 when none is supplied, and a supplied value when it is not zero. *)
Lemma search_similar_arguments `{Externals} (query_text : string)
    (top_k : option Z) (threshold : option float) (vs : VectorStore) :
  let k := match top_k with
           | Some v => if Z.eqb v 0 then 5%Z else v
           | None => 5%Z
           end in
  let t := match threshold with
           | Some v => if PrimFloat.eqb v 0%float then 0.3%float else v
           | None => 0.3%float
           end in
  calls (snd (VectorStoreImpl.search_similar query_text top_k threshold vs))
  = (calls vs ++ [CallEncodeSingle query_text;
                  CallQueryPoints (encode_single query_text) k t])%list.
Proof.
  cbn zeta. rewrite search_similar_run. cbn [snd calls].
  unfold PyNum.int_or, PyNum.float_or, PyNum.float_truthy.
  destruct top_k as [v |], threshold as [w |]; cbn;
    try destruct (PrimFloat.eqb w 0); reflexivity.
Qed.

(** C6, at the input on which the code departs from it: a caller that
    supplies [top_k = 0] and [threshold = 0.0] gets the query of a caller
    that supplies nothing, with limit 5 and score threshold 0.3. *)
Theorem search_similar_zero_is_not_supplied `{Externals}
    (query_text : string) (vs : VectorStore) :
  VectorStoreImpl.search_similar query_text (Some 0%Z) (Some 0%float) vs
  = VectorStoreImpl.search_similar query_text None None vs
  /\ calls (snd (VectorStoreImpl.search_similar
                   query_text (Some 0%Z) (Some 0%float) vs))
     = (calls vs ++ [CallEncodeSingle query_text;
                     CallQueryPoints (encode_single query_text) 5 0.3%float])%list.
Proof.
  split; [reflexivity |].
  apply (search_similar_arguments query_text (Some 0%Z) (Some 0%float) vs).
Qed.

(** C1, at the input on which the code departs from it: on the engine that
    holds the two failures of the sample log, a query with [top_k = 0]
    returns two results. *)
Theorem find_similar_failures_top_k_zero :
  exists results,
    fst (AnalysisServiceImpl.find_similar_failures "assertion timeout" 0 Demo.fresh)
    = Return results
    /\ List.length results = 2%nat
    /\ fst (VectorStoreImpl.search_similar "assertion timeout" (Some 0%Z) None
              (vector_store Demo.indexed))
       = Return results.
Proof. eexists. vm_compute. repeat split. Qed.


(** ** Further properties of the engine *)

(** A message that holds both words, in mixed case, with no similar failure
    on record: the recommendation is the timeout guidance alone. *)
Example timeout_and_assertion_message :
  _generate_recommendation
    (Demo.event "testLogin" "FAILED" "ERROR"
                "Connection TIMEOUT after AssertionError: expected true")
    [] (_extract_patterns Demo.timeout_failure [])
  = Guidance.timeout.
Proof. reflexivity. Qed.



Lemma upsert_fresh (p : PointStruct) (c : list PointStruct) :
  ~ In (point_id p) (map point_id c) ->
  Qdrant.upsert p c = (c ++ [p])%list.
Proof.
  induction c as [| q c IH]; cbn; [reflexivity |].
  intros Hnot. destruct (String.eqb_spec (point_id q) (point_id p)) as [Heq | _].
  - elim Hnot. now left.
  - rewrite IH; [reflexivity |]. intros Hin. apply Hnot. now right.
Qed.

Lemma points_after_fresh `{Externals} (failures : list TestEvent) :
  forall n pts,
    NoDup (map point_id pts ++ map uuid4 (seq n (List.length failures))) ->
    List.length (points_after failures n pts)
    = (List.length pts + List.length failures)%nat.
Proof.
  induction failures as [| e r IH]; intros n pts Hnd; cbn; [lia |].
  cbn in Hnd.
  assert (Hfresh : ~ In (uuid4 n) (map point_id pts)).
  { apply NoDup_remove_2 in Hnd. intros Hin. apply Hnd.
    apply in_or_app. now left. }
  rewrite upsert_fresh by exact Hfresh.
  rewrite IH.
  - rewrite length_app. cbn. lia.
  - rewrite map_app. cbn. rewrite <- app_assoc. cbn.
    apply NoDup_remove_1 in Hnd as Hnd'.
    apply NoDup_remove_2 in Hnd.
    apply NoDup_app_remove_l in Hnd' as Hr.
    apply NoDup_app_remove_r in Hnd' as Hl.
    rewrite <- (app_nil_r (map point_id pts)) in Hl.
    assert (Hperm : NoDup (uuid4 n :: (map point_id pts
                                        ++ map uuid4 (seq (S n) (List.length r))))).
    { constructor; assumption. }
    clear - Hperm.
    apply NoDup_cons_iff in Hperm as [Hnot Hnd].
    induction (map point_id pts) as [| a l IHl]; cbn in *.
    + constructor; assumption.
    + apply NoDup_cons_iff in Hnd as [Ha Hnd]. constructor.
      * intros Hin. apply in_app_or in Hin as [Hin | [Hin | Hin]].
        -- apply Ha, in_or_app. now left.
        -- apply Hnot. now left.
        -- apply Ha, in_or_app. now right.
      * apply IHl; [| exact Hnd]. intros Hin. apply Hnot. now right.
Qed.

(** When the identifiers drawn are new to the collection and distinct,
    [load_and_index] adds one entry per failure of the log; called again on
    the same log it adds as many again (nothing is deduplicated). *)
Theorem load_and_index_adds_one_entry_per_failure `{Externals}
    (s : AnalysisService) :
  let failures := filter is_failure (get_all_events (parser s)) in
  let vs := vector_store s in
  NoDup (map point_id (points vs)
         ++ map uuid4 (seq (uuid_drawn vs) (List.length failures))) ->
  List.length (points (vector_store (snd (AnalysisServiceImpl.load_and_index s))))
  = (List.length (points vs) + List.length failures)%nat.
Proof.
  cbn zeta. intros Hnd. rewrite load_and_index_run. cbn.
  now apply points_after_fresh.
Qed.

Lemma load_and_index_adds_one_entry_per_failure_witness :
  List.length (points (vector_store Demo.indexed)) = 2%nat
  /\ List.length
       (points (vector_store (snd (AnalysisServiceImpl.load_and_index Demo.indexed))))
     = 4%nat.
Proof.
  split; [reflexivity |].
  apply (load_and_index_adds_one_entry_per_failure Demo.indexed).
  vm_compute. repeat constructor; cbn; intuition discriminate.
Defined.


(** ** The engine: what a caller can rely on *)

Section EngineFacts.
Context `{Externals}.


(** [find_similar_failures] in one equation: the query runs on the engine
    as it is when indexed, and on the freshly loaded engine otherwise. *)
Lemma find_similar_failures_run (m : string) (k : Z) (s : AnalysisService) :
  let s1 := if _indexed s then s else loaded s in
  let vs := vector_store s1 in
  let q := encode_single m in
  let limit := PyNum.int_or (Some k) settings.TOP_K_RESULTS in
  AnalysisServiceImpl.find_similar_failures m k s
  = (Return (map VectorStoreImpl.hit_to_dict
               (Qdrant.query_points (points vs) q limit
                                    settings.SIMILARITY_THRESHOLD)),
     mkAnalysisService (parser s1)
       (mkVectorStore (collection_name vs) (points vs) (uuid_drawn vs)
          (calls vs ++ [CallEncodeSingle m;
                        CallQueryPoints q limit settings.SIMILARITY_THRESHOLD]))
       true).
Proof.
  cbn zeta. destruct (_indexed s) eqn:Hi.
  - rewrite (find_similar_failures_indexed m k s Hi).
    unfold AnalysisServiceImpl.on_vector_store.
    rewrite search_similar_run. cbn zeta. now rewrite Hi.
  - rewrite (find_similar_failures_uninitialized m k s Hi), load_and_index_run.
    cbn [snd]. unfold AnalysisServiceImpl.on_vector_store.
    rewrite search_similar_run. reflexivity.
Qed.

Lemma get_summary_state (s : AnalysisService) :
  snd (AnalysisServiceImpl.get_summary s)
  = mkAnalysisService (parser s)
      (mkVectorStore (collection_name (vector_store s)) (points (vector_store s))
         (uuid_drawn (vector_store s))
         (calls (vector_store s) ++ [CallGetCollection]))
      (_indexed s).
Proof. reflexivity. Qed.

Lemma run_query_frame (op : Operation) (s : AnalysisService) :
  op <> OpLoadAndIndex ->
  _indexed s = true ->
  points (vector_store (run op s)) = points (vector_store s)
  /\ uuid_drawn (vector_store (run op s)) = uuid_drawn (vector_store s)
  /\ parser (run op s) = parser s
  /\ _indexed (run op s) = true.
Proof.
  intros Hop Hi. destruct op as [| m k | e |]; cbn [run].
  - now elim Hop.
  - rewrite find_similar_failures_run. cbn zeta. rewrite Hi. now cbn.
  - destruct (is_failure e) eqn:Hf.
    + rewrite (analyze_failure_failure e s Hf), find_similar_failures_run.
      cbn zeta. rewrite Hi. now cbn.
    + rewrite (analyze_failure_non_failure e s Hf). now cbn.
  - rewrite get_summary_state. now cbn.
Qed.

End EngineFacts.

Lemma run_all_query_frame `{Externals}
    (ops : list Operation) (s : AnalysisService) :
  Forall (fun op => op <> OpLoadAndIndex) ops ->
  _indexed s = true ->
  points (vector_store (run_all ops s)) = points (vector_store s)
  /\ uuid_drawn (vector_store (run_all ops s)) = uuid_drawn (vector_store s)
  /\ parser (run_all ops s) = parser s
  /\ _indexed (run_all ops s) = true.
Proof.
  intros Hops. revert s.
  induction Hops as [| op ops Hop _ IH]; intros s Hi; [cbn; auto |].
  change (run_all (op :: ops) s) with (run_all ops (run op s)).
  destruct (run_query_frame op s Hop Hi) as [Hp [Hu [Hl Hi']]].
  destruct (IH (run op s) Hi') as [Hp' [Hu' [Hl' Hi'']]].
  repeat split; congruence.
Qed.

(** Once the engine is indexed, no sequence of queries, analyses and
    summaries writes to the index: the collection holds the same points
    afterwards, no identifier is drawn, and the log is the same. *)
Theorem queries_never_write_once_indexed `{Externals}
    (ops : list Operation) (s : AnalysisService) :
  Forall (fun op => op <> OpLoadAndIndex) ops ->
  _indexed s = true ->
  points (vector_store (run_all ops s)) = points (vector_store s)
  /\ uuid_drawn (vector_store (run_all ops s)) = uuid_drawn (vector_store s)
  /\ parser (run_all ops s) = parser s.
Proof.
  intros Hops Hi.
  destruct (run_all_query_frame ops s Hops Hi) as [Hp [Hu [Hl _]]].
  auto.
Qed.

(** Retrieval is repeatable: on an indexed engine the same query returns
    the same results again, whatever queries, analyses and summaries were
    run in between. *)
Theorem find_similar_failures_repeatable `{Externals}
    (error_message : string) (top_k : Z) (between : list Operation)
    (s : AnalysisService) :
  Forall (fun op => op <> OpLoadAndIndex) between ->
  _indexed s = true ->
  fst (AnalysisServiceImpl.find_similar_failures error_message top_k
         (run_all between
            (snd (AnalysisServiceImpl.find_similar_failures error_message top_k s))))
  = fst (AnalysisServiceImpl.find_similar_failures error_message top_k s).
Proof.
  intros Hops Hi.
  assert (Hall : Forall (fun op => op <> OpLoadAndIndex)
                        (OpFindSimilar error_message top_k :: between))
    by (constructor; [discriminate | exact Hops]).
  destruct (run_all_query_frame _ s Hall Hi) as [Hp [_ [_ Hi']]].
  change (run_all (OpFindSimilar error_message top_k :: between) s)
    with (run_all between
            (snd (AnalysisServiceImpl.find_similar_failures error_message top_k s)))
    in Hp, Hi'.
  set (s1 := run_all between
               (snd (AnalysisServiceImpl.find_similar_failures
                       error_message top_k s))) in *.
  rewrite (find_similar_failures_run error_message top_k s1),
    (find_similar_failures_run error_message top_k s).
  cbn zeta. cbn [fst]. rewrite Hi, Hi', Hp. reflexivity.
Qed.

Lemma find_similar_failures_repeatable_witness :
  fst (AnalysisServiceImpl.find_similar_failures "timeout" 3
         (run_all [OpAnalyze Demo.assertion_failure; OpSummary]
            (snd (AnalysisServiceImpl.find_similar_failures "timeout" 3
                    Demo.indexed))))
  = fst (AnalysisServiceImpl.find_similar_failures "timeout" 3 Demo.indexed).
Proof.
  apply (find_similar_failures_repeatable "timeout" 3
           [OpAnalyze Demo.assertion_failure; OpSummary] Demo.indexed).
  - repeat constructor; discriminate.
  - reflexivity.
Defined.

Lemma queries_never_write_once_indexed_witness :
  points (vector_store
            (run_all [OpFindSimilar "timeout" 3;
                      OpAnalyze Demo.assertion_failure;
                      OpSummary;
                      OpAnalyze Demo.passed_event] Demo.indexed))
  = points (vector_store Demo.indexed).
Proof.
  apply (queries_never_write_once_indexed
           [OpFindSimilar "timeout" 3; OpAnalyze Demo.assertion_failure;
            OpSummary; OpAnalyze Demo.passed_event] Demo.indexed).
  - repeat constructor; discriminate.
  - reflexivity.
Defined.




(** [_generate_recommendation] never returns the empty string: when neither
    warning applies and no text rule matches, the recommendation is the
    fallback; and the fallback never appears beside another message. *)
Theorem recommendation_never_empty (event : TestEvent)
    (similar : list SimilarityResult) (patterns : Patterns) :
  let msg := PyStr.lower (message event) in
  let parts := recommendations_of event similar patterns in
  let high :=
    PyNum.gt_float
      (match avg_similarity patterns with Some a => a | None => PyNum.Int 0 end)
      0.9%float in
  PyStr.truthy (_generate_recommendation event similar patterns) = true
  /\ parts <> []
  /\ (In Guidance.fallback parts <-> parts = [Guidance.fallback])
  /\ (parts = [Guidance.fallback]
      <-> recurring patterns = false
          /\ high = false
          /\ PyStr.contains "timeout" msg = false
          /\ PyStr.contains "element not found" msg
             || PyStr.contains "nosuchelement" msg = false
          /\ PyStr.contains "assertion" msg = false).
Proof.
  cbn zeta. unfold _generate_recommendation, recommendations_of, append.
  set (msg := PyStr.lower (message event)).
  assert (Hno : forall l, existsb (String.eqb Guidance.fallback) l = false ->
                          ~ In Guidance.fallback l /\ l <> [Guidance.fallback]).
  { intros l Hl. split.
    - intros Hin. apply In_existsb in Hin. congruence.
    - intros ->. discriminate Hl. }
  destruct (recurring patterns); destruct (PyNum.gt_float _ _);
    destruct (PyStr.contains "timeout" msg);
    destruct (PyStr.contains "element not found" msg
              || PyStr.contains "nosuchelement" msg);
    destruct (PyStr.contains "assertion" msg);
    cbn [app];
    (split; [reflexivity |]); (split; [discriminate |]);
    match goal with
    | |- context [In _ [Guidance.fallback]] =>
        split; [split; [reflexivity | intros _; now left] |];
        split; [now repeat split | reflexivity]
    | |- context [In Guidance.fallback ?l] =>
        destruct (Hno l eq_refl) as [Hin Hne];
        split; [split; [intros Hf; now elim Hin | intros Hf; now elim Hne] |];
        split; [intros Hf; now elim Hne |];
        intros [H1 [H2 [H3 [H4 H5]]]]; discriminate
    end.
Qed.

(** ** Counts *)





(** ** Counters *)

Section CounterFacts.

Lemma counter_get_add (k k' : string) (c : Counter.t) :
  counter_get k (Counter.add k' c)
  = (counter_get k c + (if String.eqb k' k then 1 else 0))%Z.
Proof.
  induction c as [| [k0 n] c IH]; cbn.
  - destruct (String.eqb k' k); reflexivity.
  - destruct (String.eqb_spec k0 k') as [-> | Hne]; cbn.
    + destruct (String.eqb k' k); lia.
    + destruct (String.eqb_spec k0 k) as [-> | Hne'].
      * destruct (String.eqb_spec k' k) as [-> | _]; [now elim Hne | lia].
      * exact IH.
Qed.

Lemma counter_keys_add (k : string) (c : Counter.t) :
  map fst (Counter.add k c)
  = if existsb (String.eqb k) (map fst c) then map fst c
    else (map fst c ++ [k])%list.
Proof.
  induction c as [| [k0 n] c IH]; cbn; [reflexivity |].
  rewrite (String.eqb_sym k k0).
  destruct (String.eqb k0 k); cbn; [reflexivity |].
  rewrite IH. now destruct (existsb (String.eqb k) (map fst c)).
Qed.

Lemma counter_keys_add_NoDup (k : string) (c : Counter.t) :
  NoDup (map fst c) -> NoDup (map fst (Counter.add k c)).
Proof.
  intros Hnd. rewrite counter_keys_add.
  destruct (existsb (String.eqb k) (map fst c)) eqn:Ex; [exact Hnd |].
  apply NoDup_app; [exact Hnd | repeat constructor; tauto |].
  intros x Hx [-> | []].
  assert (Hk : existsb (String.eqb x) (map fst c) = true).
  { apply existsb_exists. exists x. split; [exact Hx | apply String.eqb_refl]. }
  congruence.
Qed.

Lemma counter_positive_add (k : string) (c : Counter.t) :
  Forall (fun kn => (1 <= snd kn)%Z) c ->
  Forall (fun kn => (1 <= snd kn)%Z) (Counter.add k c).
Proof.
  induction 1 as [| [k0 n] c Hn Hc IH]; cbn.
  - repeat constructor. cbn. lia.
  - destruct (String.eqb k0 k); constructor; cbn in *; auto; lia.
Qed.

Lemma counter_total_cons (kn : string * Z) (c : Counter.t) :
  counter_total (kn :: c) = (snd kn + counter_total c)%Z.
Proof. reflexivity. Qed.

Lemma counter_total_add (k : string) (c : Counter.t) :
  counter_total (Counter.add k c) = (counter_total c + 1)%Z.
Proof.
  induction c as [| [k0 n] c IH]; [reflexivity |].
  cbn [Counter.add]. destruct (String.eqb k0 k);
    rewrite !counter_total_cons; cbn [snd]; [| rewrite IH]; lia.
Qed.

Lemma occurrences_cons (k a : string) (keys : list string) :
  occurrences k (a :: keys)
  = (occurrences k keys + (if String.eqb a k then 1 else 0))%Z.
Proof.
  unfold occurrences, len. cbn [filter]. rewrite (String.eqb_sym k a).
  destruct (String.eqb a k); cbn [List.length]; lia.
Qed.

(** The counter built from a list of keys, started from [c]. *)
Lemma counter_fold (keys : list string) :
  forall c,
    NoDup (map fst c) ->
    Forall (fun kn => (1 <= snd kn)%Z) c ->
    let c' := fold_left (fun c k => Counter.add k c) keys c in
    NoDup (map fst c')
    /\ Forall (fun kn => (1 <= snd kn)%Z) c'
    /\ (forall k, counter_get k c' = (counter_get k c + occurrences k keys)%Z)
    /\ counter_total c' = (counter_total c + len keys)%Z.
Proof.
  induction keys as [| a keys IH]; intros c Hnd Hpos; cbn zeta.
  - cbn [fold_left]. split; [exact Hnd |]. split; [exact Hpos |].
    split; intros; unfold occurrences, len; cbn [filter List.length]; lia.
  - cbn [fold_left].
    destruct (IH (Counter.add a c) (counter_keys_add_NoDup a c Hnd)
                 (counter_positive_add a c Hpos)) as [Hn [Hp [Hg Ht]]].
    repeat split; auto.
    + intros k. rewrite Hg, counter_get_add, occurrences_cons. lia.
    + rewrite Ht, counter_total_add. unfold len. cbn [List.length]. lia.
Qed.

Lemma counter_get_In (k : string) (n : Z) (c : Counter.t) :
  NoDup (map fst c) -> In (k, n) c -> counter_get k c = n.
Proof.
  induction c as [| [k0 n0] c IH]; cbn; [tauto |].
  intros Hnd [Heq | Hin].
  - injection Heq as -> ->. now rewrite String.eqb_refl.
  - apply NoDup_cons_iff in Hnd as [Hnot Hnd].
    destruct (String.eqb_spec k0 k) as [-> | _]; [| now apply IH].
    elim Hnot. apply in_map_iff. now exists (k, n).
Qed.

Lemma counter_In_get (k : string) (c : Counter.t) :
  In k (map fst c) -> In (k, counter_get k c) c.
Proof.
  induction c as [| [k0 n0] c IH]; cbn; [tauto |].
  intros Hin. destruct (String.eqb_spec k0 k) as [-> | Hne]; [now left |].
  right. apply IH. destruct Hin as [Heq | Hin]; [now elim Hne | exact Hin].
Qed.

Lemma counter_get_zero (k : string) (c : Counter.t) :
  ~ In k (map fst c) -> counter_get k c = 0%Z.
Proof.
  induction c as [| [k0 n0] c IH]; cbn; [reflexivity |].
  intros Hnot. destruct (String.eqb_spec k0 k) as [-> | _].
  - elim Hnot. now left.
  - apply IH. tauto.
Qed.

Lemma insert_Permutation (x : string * Z) (l : Counter.t) :
  Permutation.Permutation (Counter.insert x l) (x :: l).
Proof.
  induction l as [| y l IH]; cbn; [apply Permutation.Permutation_refl |].
  destruct (Z.leb (snd y) (snd x)); [apply Permutation.Permutation_refl |].
  apply Permutation.perm_trans with (y :: x :: l).
  - now apply Permutation.perm_skip.
  - apply Permutation.perm_swap.
Qed.

Lemma ranked_Permutation (c : Counter.t) :
  Permutation.Permutation (fold_right Counter.insert [] c) c.
Proof.
  induction c as [| x c IH]; cbn; [apply Permutation.perm_nil |].
  apply Permutation.perm_trans with (x :: fold_right Counter.insert [] c).
  - apply insert_Permutation.
  - now apply Permutation.perm_skip.
Qed.

Lemma counts_non_increasing_cons (a b : string * Z) (r : Counter.t) :
  counts_non_increasing (a :: b :: r)
  = Z.leb (snd b) (snd a) && counts_non_increasing (b :: r).
Proof. reflexivity. Qed.

Lemma insert_sorted (x : string * Z) (l : Counter.t) :
  counts_non_increasing l = true ->
  counts_non_increasing (Counter.insert x l) = true.
Proof.
  induction l as [| y r IH]; intros Hs; [reflexivity |].
  cbn [Counter.insert].
  destruct (Z.leb (snd y) (snd x)) eqn:Eyx.
  - rewrite counts_non_increasing_cons, Eyx. exact Hs.
  - assert (Exy : Z.leb (snd x) (snd y) = true)
      by (apply Z.leb_le; apply Z.leb_gt in Eyx; lia).
    destruct r as [| z r'].
    + cbn. now rewrite Exy.
    + rewrite counts_non_increasing_cons in Hs.
      apply andb_true_iff in Hs as [Ezy Hs]. specialize (IH Hs).
      cbn [Counter.insert] in IH |- *.
      destruct (Z.leb (snd z) (snd x)).
      * rewrite counts_non_increasing_cons, Exy. exact IH.
      * rewrite counts_non_increasing_cons, Ezy. exact IH.
Qed.

Lemma ranked_sorted (c : Counter.t) :
  counts_non_increasing (fold_right Counter.insert [] c) = true.
Proof.
  induction c as [| x c IH]; cbn; [reflexivity | now apply insert_sorted].
Qed.

Lemma firstn_counts_non_increasing (n : nat) :
  forall c, counts_non_increasing c = true ->
            counts_non_increasing (firstn n c) = true.
Proof.
  induction n as [| n IH]; intros [| a [| b r]] Hs; try reflexivity.
  - destruct n; reflexivity.
  - rewrite counts_non_increasing_cons in Hs.
    apply andb_true_iff in Hs as [Hba Hs].
    specialize (IH _ Hs). destruct n as [| n]; [reflexivity |].
    change (firstn (S (S n)) (a :: b :: r)) with (a :: firstn (S n) (b :: r)).
    change (firstn (S n) (b :: r)) with (b :: firstn n r) in IH |- *.
    rewrite counts_non_increasing_cons, Hba. exact IH.
Qed.

Lemma counter_total_Permutation (c c' : Counter.t) :
  Permutation.Permutation c c' -> counter_total c = counter_total c'.
Proof.
  induction 1 as [| x l l' _ IH | x y l | l l' l'' _ IH1 _ IH2].
  - reflexivity.
  - rewrite !counter_total_cons. lia.
  - rewrite !counter_total_cons. lia.
  - now rewrite IH1.
Qed.

Lemma counter_total_firstn (n : nat) :
  forall c, Forall (fun kn => (1 <= snd kn)%Z) c ->
            (0 <= counter_total (firstn n c) <= counter_total c)%Z.
Proof.
  assert (Hnonneg : forall c, Forall (fun kn => (1 <= snd kn)%Z) c ->
                              (0 <= counter_total c)%Z).
  { induction 1 as [| x c Hx _ IHc]; [cbn; lia |].
    rewrite counter_total_cons. lia. }
  induction n as [| n IH]; intros c Hpos.
  - specialize (Hnonneg c Hpos). cbn [firstn counter_total fold_right]. lia.
  - destruct Hpos as [| x c Hx Hc]; [cbn; lia |].
    cbn [firstn]. rewrite !counter_total_cons.
    specialize (IH c Hc). lia.
Qed.

(** What [dict(Counter(keys).most_common(n))] holds. *)
Lemma most_common_of_list (n : option nat) (keys : list string) :
  let c := Counter.most_common n (Counter.of_list keys) in
  NoDup (map fst c)
  /\ (forall k m, In (k, m) c -> m = occurrences k keys /\ (1 <= m)%Z /\ In k keys)
  /\ counts_non_increasing c = true
  /\ (0 <= counter_total c <= len keys)%Z
  /\ (n = None ->
      counter_total c = len keys
      /\ forall k, In k keys -> In (k, occurrences k keys) c).
Proof.
  cbn zeta. unfold Counter.of_list.
  destruct (counter_fold keys [] (NoDup_nil _) (Forall_nil _))
    as [Hnd [Hpos [Hget Htot]]].
  set (c := fold_left (fun c k => Counter.add k c) keys []) in *.
  pose proof (ranked_Permutation c) as Hperm.
  set (ranked := fold_right Counter.insert [] c) in *.
  assert (Hnd' : NoDup (map fst ranked)).
  { eapply Permutation.Permutation_NoDup; [| exact Hnd].
    apply Permutation.Permutation_map, Permutation.Permutation_sym, Hperm. }
  assert (Hpos' : Forall (fun kn => (1 <= snd kn)%Z) ranked).
  { apply Forall_forall. intros kn Hkn.
    apply (Permutation.Permutation_in _ Hperm) in Hkn.
    rewrite Forall_forall in Hpos. now apply Hpos. }
  assert (Hin : forall k m, In (k, m) ranked ->
                            m = occurrences k keys /\ (1 <= m)%Z /\ In k keys).
  { intros k m Hk.
    apply (Permutation.Permutation_in _ Hperm) in Hk.
    pose proof (counter_get_In k m c Hnd Hk) as Hm.
    rewrite Hget in Hm. cbn in Hm.
    rewrite Forall_forall in Hpos. specialize (Hpos _ Hk). cbn in Hpos.
    split; [lia |]. split; [exact Hpos |].
    unfold occurrences, len in Hm.
    destruct (filter (String.eqb k) keys) as [| a l] eqn:Ef; [cbn in Hm; lia |].
    assert (Ha : In a (filter (String.eqb k) keys)) by (rewrite Ef; now left).
    apply filter_In in Ha as [Ha Hka]. apply String.eqb_eq in Hka. now subst. }
  assert (Htot' : counter_total ranked = len keys).
  { rewrite (counter_total_Permutation _ _ Hperm), Htot. cbn. lia. }
  unfold Counter.most_common. fold c. fold ranked.
  destruct n as [n |].
  - split.
    { rewrite <- (firstn_skipn n ranked), map_app in Hnd'.
      now apply NoDup_app_remove_r in Hnd'. }
    split; [intros k m Hk; apply Hin; now apply In_firstn in Hk |].
    split; [apply firstn_counts_non_increasing, ranked_sorted |].
    split; [| discriminate].
    pose proof (counter_total_firstn n ranked Hpos'). lia.
  - split; [exact Hnd' |]. split; [exact Hin |].
    split; [apply ranked_sorted |].
    split; [unfold len in *; lia |]. intros _. split; [exact Htot' |].
    intros k Hk.
    apply (Permutation.Permutation_in _ (Permutation.Permutation_sym Hperm)).
    assert (Hkey : In k (map fst c)).
    { destruct (in_dec string_dec k (map fst c)) as [Hi | Hn]; [exact Hi |].
      pose proof (counter_get_zero k c Hn) as Hz. rewrite Hget in Hz. cbn in Hz.
      unfold occurrences, len in Hz.
      assert (Hf : In k (filter (String.eqb k) keys))
        by (apply filter_In; split; [exact Hk | apply String.eqb_refl]).
      destruct (filter (String.eqb k) keys); [elim Hf | cbn in Hz; lia]. }
    pose proof (counter_In_get k c Hkey) as Hc.
    rewrite Hget in Hc. exact Hc.
Qed.

End CounterFacts.

(** The two breakdowns of [get_summary] are exact: each class (each test)
    that has a failure is listed once, with the number of failures of the
    log that carry it; the entries come in non-increasing order of count, and
    the counts add up to [total_failures]. *)
Theorem get_summary_breakdown `{Externals} (s : AnalysisService) :
  let failures := filter is_failure (get_all_events (parser s)) in
  exists summary s',
    AnalysisServiceImpl.get_summary s = (Return summary, s')
    /\ NoDup (map fst (failures_by_class summary))
    /\ (forall k n, In (k, n) (failures_by_class summary) ->
                    n = occurrences k (map class_name failures) /\ (1 <= n)%Z)
    /\ (forall f, In f failures ->
                  In (class_name f,
                      occurrences (class_name f) (map class_name failures))
                     (failures_by_class summary))
    /\ counts_non_increasing (failures_by_class summary) = true
    /\ counter_total (failures_by_class summary) = total_failures summary
    /\ NoDup (map fst (failures_by_test summary))
    /\ (forall k n, In (k, n) (failures_by_test summary) ->
                    n = occurrences k (map test_name failures) /\ (1 <= n)%Z)
    /\ (forall f, In f failures ->
                  In (test_name f,
                      occurrences (test_name f) (map test_name failures))
                     (failures_by_test summary))
    /\ counts_non_increasing (failures_by_test summary) = true
    /\ counter_total (failures_by_test summary) = total_failures summary.
Proof.
  cbn zeta. destruct (get_summary_run s) as [s' [Hrun _]]. cbn zeta in Hrun.
  do 2 eexists. split; [exact Hrun |].
  cbn [failures_by_class failures_by_test total_failures].
  set (failures := filter is_failure (get_all_events (parser s))).
  destruct (most_common_of_list None (map class_name failures))
    as [Hnd [Hin [Hs [_ Hall]]]].
  destruct (Hall eq_refl) as [Htot Hkeys].
  destruct (most_common_of_list None (map test_name failures))
    as [Hnd' [Hin' [Hs' [_ Hall']]]].
  destruct (Hall' eq_refl) as [Htot' Hkeys'].
  unfold len in Htot, Htot'. rewrite length_map in Htot, Htot'.
  split; [exact Hnd |].
  split; [intros k n Hk; now apply Hin in Hk |].
  split; [intros f Hf; apply Hkeys; now apply in_map |].
  split; [exact Hs |]. split; [exact Htot |].
  split; [exact Hnd' |].
  split; [intros k n Hk; now apply Hin' in Hk |].
  split; [intros f Hf; apply Hkeys'; now apply in_map |].
  split; [exact Hs' | exact Htot'].
Qed.

Lemma extract_patterns_nonempty (event : TestEvent)
    (similar : list SimilarityResult) :
  similar <> [] ->
  _extract_patterns event similar
  = mkPatterns
      (Z.ltb 0 (len similar)
       && existsb (fun s => PrimFloat.ltb 0.85%float (score s)) similar)
      (len similar)
      (Some (Counter.most_common (Some 5%nat)
               (Counter.of_list (map r_test_name similar))))
      (Some (Counter.most_common (Some 5%nat)
               (Counter.of_list (map r_class_name similar))))
      (Some (PyNum.Float
               (PrimFloat.div (PyNum.sum (map score similar))
                              (PyNum.float_of_int (len similar))))).
Proof. destruct similar; [now intros Hne | reflexivity]. Qed.

(** The pattern summary counts what was retrieved: [frequency] is the
    number of similar failures; the affected tests (and classes) are at
    most five, each listed once with the number of retrieved results that
    carry it, in non-increasing order of count; and the three optional keys
    are absent exactly when nothing was retrieved. *)
Theorem extract_patterns_counts (event : TestEvent)
    (similar : list SimilarityResult) :
  let p := _extract_patterns event similar in
  let counted (keys : list string) (c : option Counter.t) :=
    match c with
    | None => similar = []
    | Some c =>
        similar <> []
        /\ (List.length c <= 5)%nat
        /\ NoDup (map fst c)
        /\ (forall k n, In (k, n) c -> n = occurrences k keys /\ (1 <= n)%Z)
        /\ counts_non_increasing c = true
        /\ (counter_total c <= frequency p)%Z
    end in
  frequency p = len similar
  /\ counted (map r_test_name similar) (affected_tests p)
  /\ counted (map r_class_name similar) (affected_classes p)
  /\ (avg_similarity p = None <-> similar = []).
Proof.
  cbn zeta. destruct similar as [| r rest].
  - cbn. repeat split; reflexivity.
  - assert (Hsim : r :: rest <> []) by discriminate.
    rewrite (extract_patterns_nonempty event (r :: rest) Hsim).
    generalize dependent (r :: rest). intros similar Hsim.
    cbn [frequency affected_tests affected_classes avg_similarity].
    destruct (most_common_of_list (Some 5%nat) (map r_test_name similar))
      as [Hnd [Hin [Hs [Ht _]]]].
    destruct (most_common_of_list (Some 5%nat) (map r_class_name similar))
      as [Hnd' [Hin' [Hs' [Ht' _]]]].
    unfold len in Ht, Ht'. rewrite length_map in Ht, Ht'.
    split; [reflexivity |]. split; [| split].
    + split; [exact Hsim |]. split; [apply firstn_le_length |].
      split; [exact Hnd |]. split.
      * intros k n Hk. now apply Hin in Hk.
      * split; [exact Hs | unfold len; lia].
    + split; [exact Hsim |]. split; [apply firstn_le_length |].
      split; [exact Hnd' |]. split.
      * intros k n Hk. now apply Hin' in Hk.
      * split; [exact Hs' | unfold len; lia].
    + split; [discriminate | intros Heq; now elim Hsim].
Qed.

(** ** Indexing and retrieval together *)

Section RoundTrip.
Context `{Externals}.

Lemma upsert_In (p : PointStruct) (c : list PointStruct) :
  In p (Qdrant.upsert p c).
Proof.
  induction c as [| q c IH]; cbn; [now left |].
  destruct (String.eqb (point_id q) (point_id p)); [now left | now right].
Qed.

Lemma upsert_length (p : PointStruct) (c : list PointStruct) :
  (List.length c <= List.length (Qdrant.upsert p c) <= S (List.length c))%nat.
Proof.
  induction c as [| q c IH]; cbn; [lia |].
  destruct (String.eqb (point_id q) (point_id p)); cbn; lia.
Qed.

Lemma insert_hit_In_conv (h x : ScoredPoint) (l : list ScoredPoint) :
  h = x \/ In h l -> In h (Qdrant.insert_hit x l).
Proof.
  induction l as [| y l IH]; cbn.
  - intros [-> | []]. now left.
  - destruct (PrimFloat.leb (hit_score y) (hit_score x)); cbn.
    + intros [-> | [-> | Hin]]; auto.
    + intros [-> | [-> | Hin]]; auto.
Qed.

Lemma sort_hits_In_conv (h : ScoredPoint) (l : list ScoredPoint) :
  In h l -> In h (Qdrant.sort_hits l).
Proof.
  induction l as [| x l IH]; cbn; [tauto |].
  intros [-> | Hin]; apply insert_hit_In_conv; auto.
Qed.

Lemma insert_hit_length (x : ScoredPoint) (l : list ScoredPoint) :
  List.length (Qdrant.insert_hit x l) = S (List.length l).
Proof.
  induction l as [| y l IH]; cbn; [reflexivity |].
  destruct (PrimFloat.leb (hit_score y) (hit_score x)); cbn; [reflexivity |].
  now rewrite IH.
Qed.

Lemma sort_hits_length (l : list ScoredPoint) :
  List.length (Qdrant.sort_hits l) = List.length l.
Proof.
  unfold Qdrant.sort_hits.
  induction l as [| x l IH]; cbn [fold_right]; [reflexivity |].
  rewrite insert_hit_length, IH. reflexivity.
Qed.

(** A point of the collection whose score clears the threshold is among the
    hits when the limit is at least the size of the collection. *)
Lemma query_points_complete (c : list PointStruct) (q : list float) (k : Z)
    (t : float) (p : PointStruct) :
  In p c ->
  PrimFloat.leb t (similarity q (vector p)) = true ->
  (List.length c <= Z.to_nat k)%nat ->
  In (mkHit (similarity q (vector p)) p) (Qdrant.query_points c q k t).
Proof.
  intros Hp Ht Hk. unfold Qdrant.query_points.
  rewrite firstn_all2.
  - apply sort_hits_In_conv, filter_In. split; [| exact Ht].
    apply in_map_iff. now exists p.
  - rewrite sort_hits_length.
    etransitivity; [apply filter_length_le |]. now rewrite length_map.
Qed.

End RoundTrip.

(** A failure that has just been indexed is found again: a query for its
    own embedding text returns a result carrying its test name, class name
    and message, with the score of the text against itself, provided that
    score clears the threshold in force and the limit exceeds the number of
    points held before. *)
Theorem indexed_failure_is_found `{Externals} (event : TestEvent)
    (vs : VectorStore) (top_k : option Z) (threshold : option float) :
  let text := to_embedding_text event in
  let v := encode_single text in
  let k := PyNum.int_or top_k settings.TOP_K_RESULTS in
  let t := PyNum.float_or threshold settings.SIMILARITY_THRESHOLD in
  is_failure event = true ->
  PrimFloat.leb t (similarity v v) = true ->
  (List.length (points vs) < Z.to_nat k)%nat ->
  exists id vs1 results vs2,
    VectorStoreImpl.index_failure event vs = (Return id, vs1)
    /\ VectorStoreImpl.search_similar text top_k threshold vs1
       = (Return results, vs2)
    /\ exists r,
         In r results
         /\ score r = similarity v v
         /\ r_test_name r = test_name event
         /\ r_class_name r = class_name event
         /\ r_message r = message event
         /\ r_timestamp r = timestamp event.
Proof.
  cbn zeta. intros Hf Ht Hk.
  do 4 eexists. rewrite (index_failure_failure event vs Hf).
  split; [reflexivity |]. rewrite search_similar_run. cbn zeta. cbn [points].
  split; [reflexivity |].
  set (p := indexed_point event (uuid_drawn vs)).
  exists (VectorStoreImpl.hit_to_dict
            (mkHit (similarity (encode_single (to_embedding_text event)) (vector p)) p)).
  split; [| now cbn].
  apply in_map, query_points_complete.
  - apply upsert_In.
  - exact Ht.
  - pose proof (upsert_length p (points vs)). lia.
Qed.

Lemma indexed_failure_is_found_witness :
  exists id vs1 results vs2,
    VectorStoreImpl.index_failure Demo.timeout_failure (vector_store Demo.indexed)
    = (Return id, vs1)
    /\ VectorStoreImpl.search_similar
         (to_embedding_text Demo.timeout_failure) (Some 10%Z) None vs1
       = (Return results, vs2)
    /\ exists r,
         In r results
         /\ score r
            = similarity (encode_single (to_embedding_text Demo.timeout_failure))
                         (encode_single (to_embedding_text Demo.timeout_failure))
         /\ r_test_name r = test_name Demo.timeout_failure
         /\ r_class_name r = class_name Demo.timeout_failure
         /\ r_message r = message Demo.timeout_failure
         /\ r_timestamp r = timestamp Demo.timeout_failure.
Proof.
  apply (indexed_failure_is_found Demo.timeout_failure
           (vector_store Demo.indexed) (Some 10%Z) None);
    [reflexivity | reflexivity | vm_compute; lia].
Defined.

(** ** Reading the log *)

Section ParserFacts.
Variable json_loads : string -> LogParserImpl.Loaded.

Let parse_line := LogParserImpl.parse_line json_loads.
Let parse_lines := LogParserImpl.parse_lines json_loads.

Lemma parse_lines_skip (line : string) (rest : list string) :
  is_record_line json_loads line = false ->
  parse_lines (line :: rest) = parse_lines rest.
Proof.
  unfold is_record_line, parse_lines. cbn [LogParserImpl.parse_lines].
  unfold LogParserImpl.parse_line.
  destruct (PyStr.truthy (PyStr.strip line)); [| reflexivity].
  destruct (json_loads (PyStr.strip line)); cbn; [reflexivity | |]; discriminate.
Qed.

Lemma parse_lines_length (lines : list string) :
  forall events,
    parse_lines lines = inr events ->
    List.length events = List.length (filter (is_record_line json_loads) lines).
Proof.
  unfold parse_lines.
  induction lines as [| line rest IH]; intros events Hp.
  - injection Hp as <-. reflexivity.
  - cbn [LogParserImpl.parse_lines filter] in *. unfold is_record_line.
    unfold LogParserImpl.parse_line in Hp.
    destruct (PyStr.truthy (PyStr.strip line)); cbn [andb]; [| now apply IH].
    destruct (json_loads (PyStr.strip line)); [now apply IH | discriminate Hp |].
    destruct (LogParserImpl.parse_lines json_loads rest) as [e | evs];
      [discriminate Hp |].
    injection Hp as <-. cbn. f_equal. now apply IH.
Qed.

End ParserFacts.

(** An event read from a line of the log is a failure exactly when the
    object on that line holds ["status": "FAILED"] and ["level": "ERROR"]:
    a record with either key missing is never a failure, because the
    defaults are the empty status and the level INFO. *)
Theorem parse_line_failure_needs_status_and_level
    (json_loads : string -> LogParserImpl.Loaded) (line : string)
    (data : LogParserImpl.LogRecord) :
  json_loads (PyStr.strip line) = LogParserImpl.Object data ->
  exists event,
    LogParserImpl.parse_line json_loads line = inr (Some event)
    /\ (is_failure event = true
        <-> LogParserImpl.k_status data = Some "FAILED"
            /\ LogParserImpl.k_level data = Some "ERROR")
    /\ stacktrace event = LogParserImpl.k_stacktrace data
    /\ (LogParserImpl.k_level data = None -> level event = "INFO")
    /\ (LogParserImpl.k_environment data = None -> environment event = "local")
    /\ (LogParserImpl.k_durationMs data = None -> duration_ms event = 0%Z).
Proof.
  intros Hload. unfold LogParserImpl.parse_line. rewrite Hload.
  eexists. split; [reflexivity |].
  rewrite is_failure_spec. cbn [status level stacktrace environment duration_ms].
  split; [| split; [reflexivity |]].
  - destruct (LogParserImpl.k_status data) as [st |],
             (LogParserImpl.k_level data) as [lv |]; cbn; split;
      intros [H1 H2]; try discriminate; split; congruence.
  - repeat split; intros ->; reflexivity.
Qed.

Lemma parse_line_failure_needs_status_and_level_witness :
  let data :=
    LogParserImpl.mkLogRecord (Some "e-1") None None (Some "testLogin") None
      (Some "LoginTest") None None (Some "FAILED") (Some "boom") None None
      None None in
  exists event,
    LogParserImpl.parse_line (fun _ => LogParserImpl.Object data) "{...}"
    = inr (Some event)
    /\ is_failure event = false
    /\ level event = "INFO".
Proof.
  cbn zeta.
  destruct (parse_line_failure_needs_status_and_level
              (fun _ => LogParserImpl.Object
                          (LogParserImpl.mkLogRecord (Some "e-1") None None
                             (Some "testLogin") None (Some "LoginTest") None None
                             (Some "FAILED") (Some "boom") None None None None))
              "{...}" _ eq_refl)
    as [event [Hp [Hf [_ [Hl _]]]]].
  exists event. split; [exact Hp |]. split; [| now apply Hl].
  destruct (is_failure event); [| reflexivity].
  destruct (proj1 Hf eq_refl) as [_ Hlv]. discriminate Hlv.
Defined.

(** [parse_all] passes over blank lines and lines that are not JSON:
    removing them from the file changes neither the events read nor the
    error raised; when it returns, it returns one event per remaining line,
    and a file that does not exist reads as no event. *)
Theorem parse_all_skips_blank_and_undecodable
    (json_loads : string -> LogParserImpl.Loaded) (lines : list string) :
  LogParserImpl.parse_all json_loads (Some lines)
  = LogParserImpl.parse_all json_loads
      (Some (filter (is_record_line json_loads) lines))
  /\ (forall events,
        LogParserImpl.parse_all json_loads (Some lines) = inr events ->
        List.length events
        = List.length (filter (is_record_line json_loads) lines))
  /\ LogParserImpl.parse_all json_loads None = inr [].
Proof.
  split; [| split; [apply parse_lines_length | reflexivity]].
  cbn [LogParserImpl.parse_all].
  induction lines as [| line rest IH]; [reflexivity |].
  cbn [filter]. destruct (is_record_line json_loads line) eqn:Er.
  - unfold is_record_line in Er. apply andb_true_iff in Er as [Hb Hd].
    cbn [LogParserImpl.parse_lines]. rewrite Hb, IH. reflexivity.
  - rewrite <- IH. now apply parse_lines_skip.
Qed.

(** One line that holds JSON other than an object (a number, a list,
    [null], ...) makes the whole log unreadable: [get_all_events] and
    [get_failures] raise [AttributeError], whatever the other lines hold. *)
Theorem get_all_events_aborts_on_non_object
    (json_loads : string -> LogParserImpl.Loaded)
    (before after : list string) (line : string) :
  PyStr.truthy (PyStr.strip line) = true ->
  json_loads (PyStr.strip line) = LogParserImpl.NotAnObject ->
  LogParserImpl.get_all_events json_loads (Some (before ++ line :: after)%list)
  = inl LogParserImpl.AttributeError
  /\ LogParserImpl.get_failures json_loads (Some (before ++ line :: after)%list)
     = inl LogParserImpl.AttributeError.
Proof.
  intros Hb Hn.
  assert (Hp : LogParserImpl.parse_lines json_loads (before ++ line :: after)%list
               = inl LogParserImpl.AttributeError).
  { induction before as [| l before IH]; cbn [app LogParserImpl.parse_lines].
    - unfold LogParserImpl.parse_line. now rewrite Hb, Hn.
    - rewrite IH. destruct (PyStr.truthy (PyStr.strip l)); [| reflexivity].
      destruct (LogParserImpl.parse_line json_loads l) as [[] | [e |]];
        reflexivity. }
  unfold LogParserImpl.get_all_events, LogParserImpl.get_failures,
    LogParserImpl.parse_all. now rewrite Hp.
Qed.

Lemma get_all_events_aborts_on_non_object_witness :
  let json_loads := fun text : string =>
    if String.eqb text "42" then LogParserImpl.NotAnObject
    else LogParserImpl.DecodeError in
  LogParserImpl.get_all_events json_loads (Some (["not json"; ""] ++ "42" :: ["x"])%list)
  = inl LogParserImpl.AttributeError
  /\ LogParserImpl.get_failures json_loads (Some (["not json"; ""] ++ "42" :: ["x"])%list)
     = inl LogParserImpl.AttributeError.
Proof.
  apply (get_all_events_aborts_on_non_object
           (fun text : string =>
              if String.eqb text "42" then LogParserImpl.NotAnObject
              else LogParserImpl.DecodeError)
           ["not json"; ""] ["x"] "42"); reflexivity.
Defined.

(** Appending lines to the log appends events: when both parts read
    without error, the events of the whole file are those of the first part
    followed by those of the second. *)
Theorem parse_all_append
    (json_loads : string -> LogParserImpl.Loaded)
    (first second : list string) (events1 events2 : list TestEvent) :
  LogParserImpl.parse_all json_loads (Some first) = inr events1 ->
  LogParserImpl.parse_all json_loads (Some second) = inr events2 ->
  LogParserImpl.parse_all json_loads (Some (first ++ second)%list)
  = inr (events1 ++ events2)%list.
Proof.
  cbn [LogParserImpl.parse_all]. revert events1.
  induction first as [| line rest IH]; intros events1 H1 H2.
  - injection H1 as <-. exact H2.
  - cbn [app LogParserImpl.parse_lines] in *.
    destruct (PyStr.truthy (PyStr.strip line)); [| now apply IH].
    destruct (LogParserImpl.parse_line json_loads line) as [e | [event |]];
      [discriminate H1 | | now apply IH].
    destruct (LogParserImpl.parse_lines json_loads rest) as [e | evs] eqn:Er;
      [discriminate H1 |].
    injection H1 as <-. now rewrite (IH evs eq_refl H2).
Qed.

Lemma parse_all_append_witness :
  let json_loads := fun text : string =>
    if String.eqb text "{}" then
      LogParserImpl.Object
        (LogParserImpl.mkLogRecord None None None None None None None None
                                   None None None None None None)
    else LogParserImpl.DecodeError in
  exists e,
    LogParserImpl.parse_all json_loads (Some (["{}"; ""] ++ ["oops"; " {} "])%list)
    = inr ([e] ++ [e])%list.
Proof.
  cbn zeta. eexists.
  apply (parse_all_append
           (fun text : string =>
              if String.eqb text "{}" then
                LogParserImpl.Object
                  (LogParserImpl.mkLogRecord None None None None None None None
                     None None None None None None None)
              else LogParserImpl.DecodeError)
           ["{}"; ""] ["oops"; " {} "]); reflexivity.
Defined.

(** ** The collection and the embedding singleton *)

Lemma ensure_collection_present (collection_name : string)
    (client : list QdrantCollections.Collection) :
  existsb (fun c => String.eqb (QdrantCollections.c_name c) collection_name)
          (QdrantCollections._ensure_collection collection_name client) = true.
Proof.
  unfold QdrantCollections._ensure_collection.
  destruct (existsb _ client) eqn:Ex; cbn [negb]; [exact Ex |].
  rewrite existsb_app. cbn. rewrite String.eqb_refl. apply orb_true_r.
Qed.

(** [_ensure_collection] is idempotent and never touches what is there: it
    keeps every collection of the client as it is, adds an empty one of
    dimension 384 under cosine distance only when no collection has the
    name, and leaves a collection of that name alone even when its
    dimension or distance differ. *)
Theorem ensure_collection_idempotent (collection_name : string)
    (client : list QdrantCollections.Collection) :
  let ensured := QdrantCollections._ensure_collection collection_name client in
  QdrantCollections._ensure_collection collection_name ensured = ensured
  /\ (exists added, ensured = (client ++ added)%list
                    /\ (List.length added <= 1)%nat
                    /\ Forall (fun c =>
                                 c = QdrantCollections.mkCollection
                                       collection_name 384
                                       QdrantCollections.COSINE []) added)
  /\ (exists c, In c ensured /\ QdrantCollections.c_name c = collection_name)
  /\ (forall c, In c client ->
                QdrantCollections.c_name c = collection_name ->
                ensured = client).
Proof.
  cbn zeta. split; [| split; [| split]].
  - unfold QdrantCollections._ensure_collection at 1.
    now rewrite ensure_collection_present.
  - unfold QdrantCollections._ensure_collection.
    destruct (existsb _ client); cbn [negb].
    + exists []. rewrite app_nil_r. repeat split; [cbn; lia | constructor].
    + eexists. split; [reflexivity |]. split; [cbn; lia |].
      repeat constructor.
  - pose proof (ensure_collection_present collection_name client) as Hp.
    apply existsb_exists in Hp as [c [Hin Hn]].
    exists c. split; [exact Hin | now apply String.eqb_eq].
  - intros c Hin Hn. unfold QdrantCollections._ensure_collection.
    assert (Hex : existsb (fun c => String.eqb (QdrantCollections.c_name c)
                                               collection_name) client = true).
    { apply existsb_exists. exists c. split; [exact Hin |].
      now apply String.eqb_eq. }
    now rewrite Hex.
Qed.

(** However often [EmbeddingService()] is called, the model is loaded
    once: after the first construction the class holds one instance whose
    model is loaded, and every later construction leaves that state as it
    is. *)
Theorem embedding_model_loaded_once (n : nat) :
  Nat.iter (S n) EmbeddingServiceImpl.construct EmbeddingServiceImpl.initial
  = EmbeddingServiceImpl.mkClassState
      (Some (EmbeddingServiceImpl.mkInstance true)) 1
  /\ forall cls,
       EmbeddingServiceImpl.construct (EmbeddingServiceImpl.construct cls)
       = EmbeddingServiceImpl.construct cls
       /\ (EmbeddingServiceImpl.model_loads (EmbeddingServiceImpl.construct cls)
           <= S (EmbeddingServiceImpl.model_loads cls))%nat.
Proof.
  split.
  - induction n as [| n IH]; [reflexivity |].
    change (Nat.iter (S (S n)) EmbeddingServiceImpl.construct
                     EmbeddingServiceImpl.initial)
      with (EmbeddingServiceImpl.construct
              (Nat.iter (S n) EmbeddingServiceImpl.construct
                        EmbeddingServiceImpl.initial)).
    now rewrite IH.
  - intros [[[[|]] |] loads]; cbn; split; try reflexivity; lia.
Qed.

(** ** The statistics of the report *)

Lemma max_of_spec (rest : list Z) :
  forall first,
    (first <= Report.max_of first rest)%Z
    /\ Forall (fun d => (d <= Report.max_of first rest)%Z) rest
    /\ In (Report.max_of first rest) (first :: rest).
Proof.
  unfold Report.max_of.
  induction rest as [| d rest IH]; intros first; cbn [fold_left].
  - split; [lia |]. split; [constructor | now left].
  - destruct (IH (Z.max first d)) as [Hm [Hall Hin]].
    split; [lia |]. split.
    + constructor; [lia | exact Hall].
    + destruct Hin as [Heq | Hin]; [| right; now right].
      rewrite <- Heq.
      destruct (Z.max_spec first d) as [[_ ->] | [_ ->]];
        [right; now left | now left].
Qed.

(** The counts of the report add up: every test either passed or failed,
    so [total_tests = passed + failed], the two lists shown have those
    lengths, and the pass rate is the integer 0 exactly when there is no
    test. The report counts every event with status FAILED, whatever its
    level, so its [failed] is at least the [total_failures] of the summary,
    with equality exactly when every FAILED event has level ERROR. *)
Theorem report_statistics_consistent (events : list TestEvent) :
  let st := Report.statistics events in
  Report.st_total_tests st = (Report.st_passed st + Report.st_failed st)%Z
  /\ len (Report.st_passes st) = Report.st_passed st
  /\ len (Report.st_failures st) = Report.st_failed st
  /\ (Report.st_pass_rate st = PyNum.Int 0 <-> Report.st_total_tests st = 0%Z)
  /\ (len (filter is_failure events) <= Report.st_failed st)%Z
  /\ (len (filter is_failure events) = Report.st_failed st
      <-> forall e, In e events -> status e = "FAILED" -> level e = "ERROR").
Proof.
  cbn zeta. unfold Report.statistics.
  cbn [Report.st_total_tests Report.st_passed Report.st_failed Report.st_passes
       Report.st_failures Report.st_pass_rate].
  set (is_failed := fun e => String.eqb (status e) "FAILED").
  split; [| split; [reflexivity | split; [reflexivity | split; [| split]]]].
  - unfold len.
    rewrite (filter_length_or (fun e => String.eqb (status e) "PASSED") is_failed).
    + lia.
    + intros a Ha. unfold is_failed. apply String.eqb_eq in Ha. now rewrite Ha.
  - destruct (Z.ltb 0 (len (filter _ events))) eqn:Elt.
    + split; [discriminate |]. apply Z.ltb_lt in Elt. lia.
    + split; [intros _ | reflexivity]. apply Z.ltb_ge in Elt.
      unfold len in *. lia.
  - unfold len. apply inj_le, filter_length_mono.
    intros a Ha. apply is_failure_spec in Ha as [Hs _].
    unfold is_failed. now rewrite Hs.
  - unfold len. rewrite Nat2Z.inj_iff.
    induction events as [| e events IH]; cbn [filter].
    + split; [intros _ x [] | reflexivity].
    + pose proof (filter_length_mono is_failure is_failed events) as Hmono.
      assert (Hle : (List.length (filter is_failure events)
                     <= List.length (filter is_failed events))%nat).
      { apply Hmono. intros a Ha. apply is_failure_spec in Ha as [Hs _].
        unfold is_failed. now rewrite Hs. }
      unfold is_failure at 1. unfold is_failed at 1.
      destruct (String.eqb_spec (status e) "FAILED") as [Hst | Hst]; cbn [andb].
      * destruct (String.eqb_spec (level e) "ERROR") as [Hlv | Hlv];
          cbn [List.length].
        -- split.
           ++ intros Heq x [<- | Hx] Hs; [exact Hlv |].
              apply IH; [lia | exact Hx | exact Hs].
           ++ intros Hall. f_equal. apply IH. intros x Hx. apply Hall. now right.
        -- split; [intros Heq; lia |].
           intros Hall. elim Hlv. apply Hall; [now left | exact Hst].
      * split.
        -- intros Heq x [<- | Hx] Hs; [now elim Hst |]. now apply IH.
        -- intros Hall. apply IH. intros x Hx. apply Hall. now right.
Qed.

(** The durations the report averages are the positive ones; the maximum
    shown is one of them and bounds them all, and it is 0 exactly when no
    event has a positive duration. *)
Theorem report_max_duration (events : list TestEvent) :
  let st := Report.statistics events in
  (forall d, In d (Report.st_durations st)
             <-> exists e, In e events /\ duration_ms e = d /\ (0 < d)%Z)
  /\ (forall d, In d (Report.st_durations st) -> (d <= Report.st_max_duration st)%Z)
  /\ (Report.st_durations st <> [] ->
      In (Report.st_max_duration st) (Report.st_durations st))
  /\ (Report.st_max_duration st = 0%Z <-> Report.st_durations st = [])
  /\ (Report.st_avg_duration st = PyNum.Int 0 <-> Report.st_durations st = []).
Proof.
  cbn zeta. unfold Report.statistics.
  cbn [Report.st_durations Report.st_max_duration Report.st_avg_duration].
  set (durations := map duration_ms (filter _ events)).
  assert (Hdur : forall d, In d durations
                           <-> exists e, In e events /\ duration_ms e = d /\ (0 < d)%Z).
  { intros d. unfold durations. rewrite in_map_iff. split.
    - intros [e [Hd He]]. apply filter_In in He as [He Hpos].
      apply andb_true_iff in Hpos as [_ Hpos]. apply Z.ltb_lt in Hpos.
      exists e. repeat split; [exact He | exact Hd | lia].
    - intros [e [He [Hd Hpos]]]. exists e. split; [exact Hd |].
      apply filter_In. split; [exact He |].
      apply andb_true_iff. split.
      + apply negb_true_iff, Z.eqb_neq. lia.
      + apply Z.ltb_lt. lia. }
  split; [exact Hdur |].
  destruct durations as [| first rest] eqn:Ed.
  - split; [intros d [] |]. split; [intros Hne; now elim Hne |].
    split; split; reflexivity.
  - destruct (max_of_spec rest first) as [Hf [Hall Hin]].
    split.
    { intros d [<- | Hd]; [exact Hf |].
      rewrite Forall_forall in Hall. now apply Hall. }
    split; [intros _; exact Hin |].
    split; [| split; discriminate].
    split; [| discriminate]. intros Hz.
    assert (Hpos : (0 < first)%Z).
    { destruct (proj1 (Hdur first) (or_introl eq_refl)) as [e [_ [_ Hp]]].
      exact Hp. }
    lia.
Qed.

(** ** The API *)

Section ApiFacts.
Context `{Externals}.
Variable logs : LogParser.
Variable log_exists : bool.








End ApiFacts.






(** The health check creates the service when there is none but never
    indexes: it reports the indexed flag as it finds it, gives collection
    information (the current number of points) exactly when the service is
    indexed, and leaves flag and index as they were. *)
Theorem api_health_check_does_not_index (logs : LogParser) (log_exists : bool)
    (g : option AnalysisService) :
  exists response service,
    Api.health_check logs log_exists g = (Return response, Some service)
    /\ h_indexed response = service_indexed g
    /\ h_log_exists response = log_exists
    /\ _indexed service = service_indexed g
    /\ points (vector_store service) = service_points g
    /\ (h_collection response = None <-> service_indexed g = false)
    /\ (forall info, h_collection response = Some info ->
                     points_count info = len (service_points g)).
Proof.
  unfold Api.health_check, Api.with_service, bind, gets.
  destruct g as [s |]; cbn [Api.get_analysis_service service_indexed service_points].
  - destruct (_indexed s) eqn:Hi; cbn; rewrite ?Hi; do 2 eexists;
      (split; [reflexivity |]); cbn; repeat split; try congruence; try discriminate.
    + intros info Heq. injection Heq as <-. reflexivity.
  - cbn. do 2 eexists. split; [reflexivity |]. cbn.
    repeat split; try congruence; try discriminate.
Qed.

(** ** The texts of an event *)

Lemma split_lines_nonempty (s : string) : PyStr.split_lines s <> [].
Proof.
  destruct s as [| c r]; cbn; [discriminate |].
  destruct (Ascii.eqb c PyStr.newline); [discriminate |].
  destruct (PyStr.split_lines r); discriminate.
Qed.

Lemma split_lines_app (a b : string) :
  PyStr.split_lines (a ++ line_break ++ b)
  = (PyStr.split_lines a ++ PyStr.split_lines b)%list.
Proof.
  induction a as [| c a IH].
  - cbn. reflexivity.
  - change ((String c a ++ line_break ++ b)%string)
      with (String c (a ++ line_break ++ b)).
    cbn [PyStr.split_lines]. rewrite IH.
    destruct (Ascii.eqb c PyStr.newline); [reflexivity |].
    pose proof (split_lines_nonempty a) as Hne.
    destruct (PyStr.split_lines a); [now elim Hne | reflexivity].
Qed.

Lemma firstn_app_enough {A : Type} (n : nat) (l1 l2 : list A) :
  (n <= List.length l1)%nat -> firstn n (l1 ++ l2) = firstn n l1.
Proof.
  intros Hn. rewrite firstn_app.
  replace (n - List.length l1)%nat with 0%nat by lia.
  cbn. apply app_nil_r.
Qed.

(** Only the head of a stack trace is read: whatever follows the tenth
    line does not reach the embedding text, and whatever follows the fifth
    line does not reach the failure signature. *)
Theorem stacktrace_tail_is_ignored (e : TestEvent) (st extra : string) :
  stacktrace e = Some st ->
  let longer := with_stacktrace e (Some (st ++ line_break ++ extra)) in
  ((10 <= List.length (PyStr.split_lines st))%nat ->
   to_embedding_text longer = to_embedding_text e)
  /\ ((5 <= List.length (PyStr.split_lines st))%nat ->
      failure_signature longer = failure_signature e).
Proof.
  intros Hst. cbn zeta.
  assert (Htruthy : (2 <= List.length (PyStr.split_lines st))%nat ->
                    stacktrace_truthy e = Some st
                    /\ stacktrace_truthy
                         (with_stacktrace e (Some (st ++ line_break ++ extra)))
                       = Some (st ++ line_break ++ extra)).
  { intros Hlen. unfold stacktrace_truthy. rewrite Hst. cbn [with_stacktrace stacktrace].
    destruct st as [| c r]; [cbn in Hlen; lia |]. now cbn. }
  split; intros Hlen.
  - destruct Htruthy as [H1 H2]; [lia |].
    unfold to_embedding_text. rewrite H1, H2. cbn [with_stacktrace test_name class_name suite message].
    now rewrite split_lines_app, firstn_app_enough.
  - destruct Htruthy as [H1 H2]; [lia |].
    unfold failure_signature. rewrite H1, H2.
    replace (is_failure (with_stacktrace e (Some (st ++ line_break ++ extra))))
      with (is_failure e) by reflexivity.
    cbn [with_stacktrace test_name class_name message].
    now rewrite split_lines_app, firstn_app_enough.
Qed.

Lemma stacktrace_tail_is_ignored_witness :
  let st := "a" ++ line_break ++ "b" ++ line_break ++ "c" ++ line_break ++ "d"
            ++ line_break ++ "e" in
  let e := with_stacktrace Demo.timeout_failure (Some st) in
  failure_signature
    (with_stacktrace e (Some (st ++ line_break ++ "at Extra.frame")))
  = failure_signature e.
Proof.
  cbn zeta.
  apply (stacktrace_tail_is_ignored
           (with_stacktrace Demo.timeout_failure
              (Some ("a" ++ line_break ++ "b" ++ line_break ++ "c" ++ line_break
                     ++ "d" ++ line_break ++ "e")))
           ("a" ++ line_break ++ "b" ++ line_break ++ "c" ++ line_break ++ "d"
            ++ line_break ++ "e")
           "at Extra.frame" eq_refl).
  vm_compute. lia.
Defined.

(** The failure signature is the empty string exactly for the events that
    are not failures; the embedding text is never empty; and an empty stack
    trace counts as none in both. *)
Theorem signature_empty_iff_not_failure (e : TestEvent) :
  (failure_signature e = "" <-> is_failure e = false)
  /\ to_embedding_text e <> ""
  /\ (stacktrace e = Some "" ->
      to_embedding_text e = to_embedding_text (with_stacktrace e None)
      /\ failure_signature e = failure_signature (with_stacktrace e None)).
Proof.
  split; [| split].
  - unfold failure_signature. destruct (is_failure e); cbn [negb].
    + split; [| discriminate].
      destruct (stacktrace_truthy e) as [st |];
        [destruct (first_meaningful_line _) |]; cbn; discriminate.
    + split; reflexivity.
  - unfold to_embedding_text.
    destruct (stacktrace_truthy e); cbn; discriminate.
  - intros Hst. unfold to_embedding_text, failure_signature, stacktrace_truthy.
    rewrite Hst. cbn. split; reflexivity.
Qed.
